(** * Music_Player_Client: the transport client of the Codem music player

    A shallow embedding of [src/Music_Player_Client.py].  The client object
    is a record, the socket and the clock are an explicit environment, and
    every method is a computation in a small state-and-exception monad that
    threads the client and the world. *)

From Stdlib Require Import ZArith NArith List Bool Lia.
From Stdlib.Strings Require Import String Ascii Byte.
From Stdlib Require Import DecimalString.
Import ListNotations.

Local Open Scope Z_scope.
Set Warnings "-register-all".
Set Default Proof Using "Type".

(** ** Python values *)

(** The fragment of Python values that travels in requests and responses:
    [None], booleans, integers of any size, strings (as their byte
    sequence), lists, and dictionaries with string keys kept in insertion
    order. *)
Inductive pyval : Type :=
| PyNone
| PyBool (b : bool)
| PyInt (n : Z)
| PyStr (s : string)
| PyList (items : list pyval)
| PyDict (entries : list (string * pyval)).

(** [bool(v)], the test behind [if v:] and [not v]. *)
Definition truthy (v : pyval) : bool :=
  match v with
  | PyNone => false
  | PyBool b => b
  | PyInt n => negb (n =? 0)
  | PyStr s => match s with EmptyString => false | String _ _ => true end
  | PyList items => match items with [] => false | _ :: _ => true end
  | PyDict entries => match entries with [] => false | _ :: _ => true end
  end.

(** [v is None]. *)
Definition is_none (v : pyval) : bool :=
  match v with PyNone => true | _ => false end.

(** [v == 'lit'] for a string literal: only an equal [str] compares equal. *)
Definition py_eq_str (v : pyval) (lit : string) : bool :=
  match v with PyStr s => String.eqb s lit | _ => false end.

(** [d.get(k)] on the entries of a dictionary. *)
Fixpoint dict_lookup (d : list (string * pyval)) (k : string) : option pyval :=
  match d with
  | [] => None
  | (k', v) :: rest => if String.eqb k' k then Some v else dict_lookup rest k
  end.

(** [d[k] = v]: an existing key keeps its place, a new key goes last. *)
Fixpoint dict_set (d : list (string * pyval)) (k : string) (v : pyval)
  : list (string * pyval) :=
  match d with
  | [] => [(k, v)]
  | (k', v') :: rest =>
      if String.eqb k' k then (k', v) :: rest else (k', v') :: dict_set rest k v
  end.

(** A Python dictionary holds each key once, at every depth. *)
Fixpoint no_dup_keys (ks : list string) : bool :=
  match ks with
  | [] => true
  | k :: rest => negb (existsb (String.eqb k) rest) && no_dup_keys rest
  end.

Fixpoint wf_val (v : pyval) : bool :=
  match v with
  | PyList items => forallb wf_val items
  | PyDict entries =>
      no_dup_keys (map fst entries)
      && forallb (fun kv => wf_val (snd kv)) entries
  | _ => true
  end.

(** [str(n)] for an integer. *)
Definition str_int (n : Z) : string := NilZero.string_of_int (Z.to_int n).

(** ** Exceptions *)

(** The exception classes the client meets or raises; all of them derive
    from [Exception]. *)
Inductive exn_class : Type :=
| Exception_
| OSError
| socket_timeout
| ConnectionError
| ConnectionRefusedError
| ConnectionResetError
| ConnectionAbortedError
| BrokenPipeError
| EOFError
| UnpicklingError
| RuntimeError
| ValueError
| TypeError
| AttributeError.

Definition exn_class_eqb (a b : exn_class) : bool :=
  match a, b with
  | Exception_, Exception_ | OSError, OSError
  | socket_timeout, socket_timeout | ConnectionError, ConnectionError
  | ConnectionRefusedError, ConnectionRefusedError
  | ConnectionResetError, ConnectionResetError
  | ConnectionAbortedError, ConnectionAbortedError
  | BrokenPipeError, BrokenPipeError | EOFError, EOFError
  | UnpicklingError, UnpicklingError | RuntimeError, RuntimeError
  | ValueError, ValueError | TypeError, TypeError
  | AttributeError, AttributeError => true
  | _, _ => false
  end.

(** The class followed by its base classes (its method resolution order,
    without [BaseException] and [object]). *)
Definition mro (c : exn_class) : list exn_class :=
  match c with
  | Exception_ => [Exception_]
  | OSError => [OSError; Exception_]
  | socket_timeout => [socket_timeout; OSError; Exception_]
  | ConnectionError => [ConnectionError; OSError; Exception_]
  | ConnectionRefusedError =>
      [ConnectionRefusedError; ConnectionError; OSError; Exception_]
  | ConnectionResetError =>
      [ConnectionResetError; ConnectionError; OSError; Exception_]
  | ConnectionAbortedError =>
      [ConnectionAbortedError; ConnectionError; OSError; Exception_]
  | BrokenPipeError =>
      [BrokenPipeError; ConnectionError; OSError; Exception_]
  | EOFError => [EOFError; Exception_]
  | UnpicklingError => [UnpicklingError; Exception_]
  | RuntimeError => [RuntimeError; Exception_]
  | ValueError => [ValueError; Exception_]
  | TypeError => [TypeError; Exception_]
  | AttributeError => [AttributeError; Exception_]
  end.

Definition issubclass (c base : exn_class) : bool :=
  existsb (exn_class_eqb base) (mro c).

(** An exception object: its class and [str(e)]. *)
Record exn : Type := mk_exn { exn_cls : exn_class; exn_str : string }.

(** [isinstance(e, (c1, ..., cn))], the test of an [except] clause. *)
Definition isinstance (e : exn) (classes : list exn_class) : bool :=
  existsb (issubclass (exn_cls e)) classes.

(** ** The environment: peer, socket and clock *)

(** What the environment does on one connection: the outcome of creating
    and connecting the socket, of [sock.send], and of each [sock.recv] in
    turn (an exception, or the chunk returned; after the listed chunks the
    stream is at its end and [recv] returns the empty chunk), and the time
    the exchange takes. *)
Record exchange : Type := mk_exchange {
  on_connect : option exn;
  on_send : option exn;
  on_recv : list (exn + list byte);
  elapsed : N
}.

(** Everything outside the client: [pickle.dumps], [pickle.loads], and the
    peer, which answers a connection according to the payloads of all
    network calls made so far, the current one last. *)
Class Environment : Type := {
  pickle_dumps : pyval -> list byte;
  pickle_loads : list byte -> exn + pyval;
  peer : list (list byte) -> exchange
}.

(** The observable world: the payload of every network call made, in
    order, and the clock read by [time.time()], in whole time units. *)
Record world : Type := mk_world {
  calls : list (list byte);
  now : Z
}.

(** The client object; only [connected] is ever assigned after
    [__init__]. *)
Record client : Type := mk_client {
  host : string;
  port : Z;
  timeout : Z;
  connected : bool
}.

(** [MusicPlayerClient(host, port, timeout)]. *)
Definition __init__ (host_ : string) (port_ timeout_ : Z) : client :=
  {| host := host_; port := port_; timeout := timeout_; connected := false |}.

Definition default_client : client := __init__ "localhost" 65432 5.

(** ** The monad of methods *)

Inductive result (A : Type) : Type :=
| Return (a : A)
| Raise (e : exn).
Arguments Return {A} a.
Arguments Raise {A} e.

Definition M (A : Type) : Type := client -> world -> result A * client * world.

Definition ret {A} (a : A) : M A := fun c w => (Return a, c, w).

Definition raise {A} (e : exn) : M A := fun c w => (Raise e, c, w).

Definition bind {A B} (m : M A) (k : A -> M B) : M B :=
  fun c w =>
    match m c w with
    | (Return a, c', w') => k a c' w'
    | (Raise e, c', w') => (Raise e, c', w')
    end.

Notation "x <- m ;; k" := (bind m (fun x => k))
  (at level 61, m at next level, right associativity).
Notation "m ;;; k" := (bind m (fun _ => k))
  (at level 61, right associativity).

(** [try: body  except ... as e: handler e]. *)
Definition try_except {A} (body : M A) (handler : exn -> M A) : M A :=
  fun c w =>
    match body c w with
    | (Return a, c', w') => (Return a, c', w')
    | (Raise e, c', w') => handler e c' w'
    end.

Definition lift {A} (r : exn + A) : M A :=
  match r with inl e => raise e | inr a => ret a end.

(** [self.connected = b]. *)
Definition set_connected (b : bool) : M unit :=
  fun c w =>
    (Return tt,
     {| host := host c; port := port c; timeout := timeout c; connected := b |},
     w).

Definition get_self : M client := fun c w => (Return c, c, w).

(** [time.time()] and [time.sleep(n)]. *)
Definition time_time : M Z := fun c w => (Return (now w), c, w).

Definition time_sleep (n : Z) : M unit :=
  fun c w => (Return tt, c, {| calls := calls w; now := now w + n |}).

(** [v.get(key, default)]: only a dictionary has the method. *)
Definition py_get (v : pyval) (key : string) (default : pyval) : M pyval :=
  match v with
  | PyDict d =>
      ret (match dict_lookup d key with Some x => x | None => default end)
  | _ => raise (mk_exn AttributeError "object has no attribute 'get'")
  end.

(** ** The transport *)

Section Transport.
Context {env : Environment}.

(** One network call begins: its payload is recorded, the peer fixes the
    course of the exchange, and the clock moves on by the time it takes. *)
Definition open_exchange (payload : list byte) : M exchange :=
  fun c w =>
    let history := (calls w ++ [payload])%list in
    let ex := peer history in
    (Return ex, c, {| calls := history; now := now w + Z.of_N (elapsed ex) |}).

(** [socket.socket(...)], [sock.settimeout], [sock.connect]. *)
Definition sock_connect (ex : exchange) : M unit :=
  match on_connect ex with Some e => raise e | None => ret tt end.

(** [sock.send(...)]. *)
Definition sock_send (ex : exchange) : M unit :=
  match on_send ex with Some e => raise e | None => ret tt end.

(** The loop [while True: chunk = sock.recv(4096) ...]: it stops at the
    first empty chunk and appends every other chunk to [data]. *)
Fixpoint recv_loop (chunks : list (exn + list byte)) (data : list byte)
  : exn + list byte :=
  match chunks with
  | [] => inr data
  | inl e :: _ => inl e
  | inr [] :: _ => inr data
  | inr chunk :: rest => recv_loop rest (data ++ chunk)%list
  end.

Definition connection_failure_message (c : client) : string :=
  ("Could not connect to Music Player at " ++ host c ++ ":"
   ++ str_int (port c) ++ ". Make sure the application is running.")%string.

Definition communication_failure_message (e : exn) : string :=
  ("Error communicating with Music Player: " ++ exn_str e)%string.

Definition build_request (command : string) (params : pyval) : pyval :=
  PyDict [("command"%string, PyStr command); ("params"%string, params)].

(** [_send_command(self, command, params=None)]. *)
Definition _send_command (command : string) (params : pyval) : M pyval :=
  let params := if is_none params then PyDict [] else params in
  let request := build_request command params in
  try_except
    (ex <- open_exchange (pickle_dumps request) ;;
     sock_connect ex ;;;
     sock_send ex ;;;
     data <- lift (recv_loop (on_recv ex) []) ;;
     response <- lift (pickle_loads data) ;;
     set_connected true ;;;
     ret response)
    (fun e =>
       if isinstance e [socket_timeout; ConnectionRefusedError; ConnectionError]
       then
         set_connected false ;;;
         self <- get_self ;;
         raise (mk_exn ConnectionError (connection_failure_message self))
       else
         set_connected false ;;;
         raise (mk_exn RuntimeError (communication_failure_message e))).

(** [is_connected(self)]. *)
Definition is_connected : M pyval :=
  self <- get_self ;; ret (PyBool (connected self)).

(** ** Player control methods *)

Definition play : M pyval := _send_command "play" PyNone.
Definition pause : M pyval := _send_command "pause" PyNone.
Definition stop : M pyval := _send_command "stop" PyNone.
Definition next_track : M pyval := _send_command "next" PyNone.
Definition previous_track : M pyval := _send_command "prev" PyNone.

Definition set_volume (volume : Z) : M pyval :=
  if negb ((0 <=? volume) && (volume <=? 100)) then
    raise (mk_exn ValueError "Volume must be between 0 and 100")
  else
    _send_command "set_volume" (PyDict [("volume"%string, PyInt volume)]).

Definition load_playlist (files : pyval) : M pyval :=
  let params := [] in
  let params := if truthy files then dict_set params "files" files else params in
  _send_command "load_playlist" (PyDict params).

Definition download (url : pyval) : M pyval :=
  _send_command "download" (PyDict [("url"%string, url)]).

Definition get_status : M pyval := _send_command "get_status" PyNone.
Definition get_playlist : M pyval := _send_command "get_playlist" PyNone.

Definition set_position (position : pyval) : M pyval :=
  _send_command "set_position" (PyDict [("position"%string, position)]).

Definition toggle_loop : M pyval := _send_command "toggle_loop" PyNone.

Definition convert_files (files mode : pyval) : M pyval :=
  _send_command "convert_files"
    (PyDict [("files"%string, files); ("mode"%string, mode)]).

(** ** Convenience methods *)

Definition play_url (url : pyval) : M pyval :=
  result <- download url ;;
  s <- py_get result "status" PyNone ;;
  if py_eq_str s "success" then
    time_sleep 1 ;;;
    status <- get_status ;;
    s' <- py_get status "status" PyNone ;;
    if py_eq_str s' "success" then
      data <- py_get status "data" (PyDict []) ;;
      playing <- py_get data "is_playing" PyNone ;;
      if negb (truthy playing) then play else ret result
    else ret result
  else ret result.

Definition add_to_queue (url : pyval) : M pyval := download url.

Definition get_current_track_info : M pyval :=
  status <- get_status ;;
  s <- py_get status "status" PyNone ;;
  if py_eq_str s "success" then py_get status "data" PyNone
  else ret PyNone.

(** The [while] loop of [wait_for_download]; [fuel] bounds the number of
    times the condition is evaluated, and [None] is returned only when it
    runs out. *)
Fixpoint wait_loop (fuel : nat) (start_time timeout_ : Z) : M (option pyval) :=
  match fuel with
  | O => ret None
  | S fuel' =>
      t <- time_time ;;
      if t - start_time <? timeout_ then
        status <- get_status ;;
        s <- py_get status "status" PyNone ;;
        if py_eq_str s "success" then
          time_sleep 1 ;;;
          wait_loop fuel' start_time timeout_
        else ret (Some (PyBool true))
      else ret (Some (PyBool false))
  end.

Definition wait_for_download (fuel : nat) (timeout_ : Z) : M (option pyval) :=
  start_time <- time_time ;;
  wait_loop fuel start_time timeout_.

End Transport.

(** ** The wire format *)

Module Wire.

(** Modelled from the spec: the serialization of envelopes.  The source
    calls [pickle.dumps] and [pickle.loads] of Python's standard library,
    whose code is not part of the repository; the spec asks for "a format
    that supports arbitrary nested mappings/lists/primitives", "e.g., a
    tagged binary".  This is such a format: a two-byte header, one tagged
    value, and a closing byte.  A value is a tag byte followed, for an
    integer, by its magnitude as a base-128 number; for a string, by its
    length and its bytes; for a list, by the number of items and the
    items; for a dictionary, by the number of entries and, for each, the
    key and the value. *)

Definition byte_of_N (n : N) : byte :=
  match Byte.of_N n with Some b => b | None => x00 end.

Fixpoint varint_go (fuel : nat) (n : N) : list byte :=
  if (n <? 128)%N then [byte_of_N n]
  else
    match fuel with
    | O => [byte_of_N (n mod 128)]
    | S fuel' => byte_of_N (128 + n mod 128) :: varint_go fuel' (n / 128)
    end.

(** A natural number in base 128, low digit first; every byte but the
    last has its high bit set. *)
Definition varint (n : N) : list byte := varint_go (N.to_nat (N.size n)) n.

Fixpoint read_varint (bs : list byte) : option (N * list byte) :=
  match bs with
  | [] => None
  | b :: rest =>
      let d := Byte.to_N b in
      if (d <? 128)%N then Some (d, rest)
      else
        match read_varint rest with
        | Some (m, rest') => Some (d - 128 + 128 * m, rest')%N
        | None => None
        end
  end.

Definition put_bytes (bs : list byte) : list byte :=
  (varint (N.of_nat (List.length bs)) ++ bs)%list.

Definition read_bytes (bs : list byte) : option (list byte * list byte) :=
  match read_varint bs with
  | Some (n, rest) =>
      if (N.to_nat n <=? List.length rest)%nat
      then Some (firstn (N.to_nat n) rest, skipn (N.to_nat n) rest)
      else None
  | None => None
  end.

Definition put_str (s : string) : list byte := put_bytes (list_byte_of_string s).

Definition read_str (bs : list byte) : option (string * list byte) :=
  match read_bytes bs with
  | Some (raw, rest) => Some (string_of_list_byte raw, rest)
  | None => None
  end.

Definition tag_none : byte := "N"%byte.
Definition tag_true : byte := x88.
Definition tag_false : byte := x89.
Definition tag_int : byte := "I"%byte.
Definition tag_negint : byte := "L"%byte.
Definition tag_str : byte := "X"%byte.
Definition tag_list : byte := "]"%byte.
Definition tag_dict : byte := "}"%byte.
Definition header : list byte := [x80; x04].
Definition stop : byte := "."%byte.

Fixpoint dumps_val (v : pyval) : list byte :=
  match v with
  | PyNone => [tag_none]
  | PyBool b => [if b then tag_true else tag_false]
  | PyInt n =>
      if n <? 0 then tag_negint :: varint (Z.to_N (- n))
      else tag_int :: varint (Z.to_N n)
  | PyStr s => tag_str :: put_str s
  | PyList items =>
      tag_list :: varint (N.of_nat (List.length items))
        ++ flat_map dumps_val items
  | PyDict entries =>
      tag_dict :: varint (N.of_nat (List.length entries))
        ++ flat_map (fun kv => put_str (fst kv) ++ dumps_val (snd kv)) entries
  end%list.

Definition dumps (v : pyval) : list byte :=
  (header ++ dumps_val v ++ [stop])%list.

(** [count] readings in a row. *)
Fixpoint read_many {A} (read : list byte -> option (A * list byte))
    (count : nat) (bs : list byte) : option (list A * list byte) :=
  match count with
  | O => Some ([], bs)
  | S count' =>
      match read bs with
      | Some (a, rest) =>
          match read_many read count' rest with
          | Some (more, rest') => Some (a :: more, rest')
          | None => None
          end
      | None => None
      end
  end.

Definition read_entry (read : list byte -> option (pyval * list byte))
    (bs : list byte) : option (string * pyval * list byte) :=
  match read_str bs with
  | Some (k, rest) =>
      match read rest with
      | Some (v, rest') => Some (k, v, rest')
      | None => None
      end
  | None => None
  end.

(** The dictionary built by assigning the entries in the order read. *)
Definition dict_of_entries (entries : list (string * pyval))
  : list (string * pyval) :=
  fold_left (fun d kv => dict_set d (fst kv) (snd kv)) entries [].

(** One value read from the front of [bs]; [fuel] bounds the nesting. *)
Fixpoint loads_val (fuel : nat) (bs : list byte) : option (pyval * list byte) :=
  match fuel with
  | O => None
  | S fuel' =>
      match bs with
      | [] => None
      | tag :: rest =>
          if Byte.eqb tag tag_none then Some (PyNone, rest)
          else if Byte.eqb tag tag_true then Some (PyBool true, rest)
          else if Byte.eqb tag tag_false then Some (PyBool false, rest)
          else if Byte.eqb tag tag_int then
            match read_varint rest with
            | Some (n, rest') => Some (PyInt (Z.of_N n), rest')
            | None => None
            end
          else if Byte.eqb tag tag_negint then
            match read_varint rest with
            | Some (n, rest') => Some (PyInt (- Z.of_N n), rest')
            | None => None
            end
          else if Byte.eqb tag tag_str then
            match read_str rest with
            | Some (s, rest') => Some (PyStr s, rest')
            | None => None
            end
          else if Byte.eqb tag tag_list then
            match read_varint rest with
            | Some (n, rest') =>
                match read_many (loads_val fuel') (N.to_nat n) rest' with
                | Some (items, rest'') => Some (PyList items, rest'')
                | None => None
                end
            | None => None
            end
          else if Byte.eqb tag tag_dict then
            match read_varint rest with
            | Some (n, rest') =>
                match read_many (read_entry (loads_val fuel')) (N.to_nat n) rest'
                with
                | Some (entries, rest'') =>
                    Some (PyDict (dict_of_entries entries), rest'')
                | None => None
                end
            | None => None
            end
          else None
      end
  end.

Definition loads (bs : list byte) : exn + pyval :=
  match bs with
  | [] => inl (mk_exn EOFError "Ran out of input")
  | h1 :: h2 :: body =>
      if Byte.eqb h1 x80 && Byte.eqb h2 x04 then
        match loads_val (List.length body) body with
        | Some (v, last :: _) =>
            if Byte.eqb last stop then inr v
            else inl (mk_exn UnpicklingError "invalid load key")
        | _ => inl (mk_exn UnpicklingError "pickle data was truncated")
        end
      else inl (mk_exn UnpicklingError "invalid load key")
  | _ => inl (mk_exn UnpicklingError "pickle data was truncated")
  end.

(** The nesting depth of a value. *)
Fixpoint depth (v : pyval) : nat :=
  match v with
  | PyList items => S (fold_right (fun x acc => Nat.max (depth x) acc) O items)
  | PyDict entries =>
      S (fold_right (fun kv acc => Nat.max (depth (snd kv)) acc) O entries)
  | _ => 1%nat
  end.

End Wire.

(** ** Reading the environment *)

Section Outcome.
Context {env : Environment}.

(** The steps of one round trip. *)
Inductive stage : Type := Connect | Send | Receive | Deserialize.

(** What one exchange comes to: the response the peer's bytes
    deserialize to, or the first step that raises, with its exception. *)
Definition outcome (ex : exchange) : stage * exn + pyval :=
  match on_connect ex with
  | Some e => inl (Connect, e)
  | None =>
      match on_send ex with
      | Some e => inl (Send, e)
      | None =>
          match recv_loop (on_recv ex) [] with
          | inl e => inl (Receive, e)
          | inr data =>
              match pickle_loads data with
              | inl e => inl (Deserialize, e)
              | inr response => inr response
              end
          end
      end
  end.

(** The bytes [_send_command(command, params)] hands to the socket. *)
Definition request_payload (command : string) (params : pyval) : list byte :=
  pickle_dumps
    (build_request command (if is_none params then PyDict [] else params)).

(** The exchange the peer holds ready for the next call with [payload]. *)
Definition next_exchange (w : world) (payload : list byte) : exchange :=
  peer (calls w ++ [payload]).

(** The world once that exchange is over. *)
Definition after_exchange (w : world) (payload : list byte) : world :=
  {| calls := calls w ++ [payload];
     now := now w + Z.of_N (elapsed (next_exchange w payload)) |}.

Definition with_connected (b : bool) (c : client) : client :=
  {| host := host c; port := port c; timeout := timeout c; connected := b |}.

Definition slept (n : Z) (w : world) : world :=
  {| calls := calls w; now := now w + n |}.

(** The exception [_send_command] raises when a step raised [e]. *)
Definition translated (c : client) (e : exn) : exn :=
  if isinstance e [socket_timeout; ConnectionRefusedError; ConnectionError]
  then mk_exn ConnectionError (connection_failure_message c)
  else mk_exn RuntimeError (communication_failure_message e).

(** The exception classes that the first [except] clause catches. *)
Definition connection_classes : list exn_class :=
  [socket_timeout; ConnectionError; ConnectionRefusedError;
   ConnectionResetError; ConnectionAbortedError; BrokenPipeError].

(** [response.get('status') == 'success'] for the entries of a mapping. *)
Definition reports_success (d : list (string * pyval)) : bool :=
  match dict_lookup d "status" with
  | Some s => py_eq_str s "success"
  | None => false
  end.

(** [response.get('data', {}).get('is_playing')] for the entries of a
    mapping; [None] when [data] is no mapping, where the source raises. *)
Definition is_playing_field (d : list (string * pyval)) : option pyval :=
  match dict_lookup d "data" with
  | None => Some PyNone
  | Some (PyDict data) =>
      Some (match dict_lookup data "is_playing" with
            | Some p => p
            | None => PyNone
            end)
  | Some _ => None
  end.

(** [response.get('data')]. *)
Definition data_field (d : list (string * pyval)) : pyval :=
  match dict_lookup d "data" with Some x => x | None => PyNone end.

(** The [i]-th poll of a [wait_for_download] begun in world [w] (counting
    from 0): the exchange the peer holds ready when [i] polls went
    before. *)
Definition poll (w : world) (i : nat) : exchange :=
  peer (calls w ++ repeat (request_payload "get_status" PyNone) (S i)).

(** The time from the start of [wait_for_download] to its [k]-th poll when
    the polls before it all reported success: each took its exchange and
    one unit of sleep. *)
Fixpoint time_before (w : world) (k : nat) : Z :=
  match k with
  | O => 0
  | S k' => time_before w k' + Z.of_N (elapsed (poll w k')) + 1
  end.

(** The world at the [k]-th poll under the same condition. *)
Definition world_at (w : world) (k : nat) : world :=
  {| calls := calls w ++ repeat (request_payload "get_status" PyNone) k;
     now := now w + time_before w k |}.

(** A poll that comes back with a mapping whose status is ["success"], or
    with a mapping of any other status. *)
Definition poll_reports (success : bool) (ex : exchange) : Prop :=
  exists d : list (string * pyval),
    outcome ex = inr (PyDict d) /\ reports_success d = success.

(** ** The operations of the client *)

Inductive operation : Type :=
| Call (command : string) (params : pyval)
| Play
| Pause
| Stop
| NextTrack
| PreviousTrack
| SetVolume (volume : Z)
| LoadPlaylist (files : pyval)
| Download (url : pyval)
| GetStatus
| GetPlaylist
| SetPosition (position : pyval)
| ToggleLoop
| ConvertFiles (files mode : pyval)
| PlayUrl (url : pyval)
| AddToQueue (url : pyval)
| GetCurrentTrackInfo
| WaitForDownload (timeout_ : Z).

Definition some {A} (m : M A) : M (option A) := a <- m ;; ret (Some a).

(** The method behind each operation; only [wait_for_download] can come
    back with [None], when [fuel] is too small for its loop. *)
Definition run (fuel : nat) (op : operation) : M (option pyval) :=
  match op with
  | Call command params => some (_send_command command params)
  | Play => some play
  | Pause => some pause
  | Stop => some stop
  | NextTrack => some next_track
  | PreviousTrack => some previous_track
  | SetVolume volume => some (set_volume volume)
  | LoadPlaylist files => some (load_playlist files)
  | Download url => some (download url)
  | GetStatus => some get_status
  | GetPlaylist => some get_playlist
  | SetPosition position => some (set_position position)
  | ToggleLoop => some toggle_loop
  | ConvertFiles files mode => some (convert_files files mode)
  | PlayUrl url => some (play_url url)
  | AddToQueue url => some (add_to_queue url)
  | GetCurrentTrackInfo => some get_current_track_info
  | WaitForDownload timeout_ => wait_for_download fuel timeout_
  end.

(** ** Invariants of methods *)

(** Whether an exchange is a successful round trip. *)
Definition round_trip_ok (ex : exchange) : bool :=
  match outcome ex with inr _ => true | inl _ => false end.

(** The flag after a method is that of its last network call, and is left
    alone when the method makes none. *)
Definition flag_follows_calls {A} (m : M A) : Prop :=
  forall (c : client) (w : world),
    exists new : list (list byte),
      calls (snd (m c w)) = (calls w ++ new)%list
      /\ connected (snd (fst (m c w)))
         = match new with
           | [] => connected c
           | _ :: _ => round_trip_ok (peer (calls (snd (m c w))))
           end.

(** The result and the world after a method do not depend on the flag
    before it, and neither do the other fields of the client. *)
Definition flag_blind {A} (m : M A) : Prop :=
  forall (c : client) (w : world) (b : bool),
    fst (fst (m (with_connected b c) w)) = fst (fst (m c w))
    /\ snd (m (with_connected b c) w) = snd (m c w)
    /\ exists b' : bool,
         snd (fst (m (with_connected b c) w))
         = with_connected b' (snd (fst (m c w))).

End Outcome.

(** ** Concrete environments *)

(** A peer that follows a script, one exchange per connection, and
    refuses every connection after the last. *)
Definition refused : exchange :=
  {| on_connect := Some (mk_exn ConnectionRefusedError
                           "[Errno 111] Connection refused");
     on_send := None; on_recv := []; elapsed := 0 |}.

Definition scripted (script : list exchange) (history : list (list byte))
  : exchange :=
  nth (Nat.pred (List.length history)) script refused.

(** The peer accepts, writes [v] in one chunk, and closes. *)
Definition reply (v : pyval) : exchange :=
  {| on_connect := None; on_send := None;
     on_recv := [inr (Wire.dumps v)]; elapsed := 0 |}.

(** The peer accepts and resets the connection while the client reads. *)
Definition reset_by_peer : exchange :=
  {| on_connect := None; on_send := None;
     on_recv := [inl (mk_exn ConnectionResetError
                        "[Errno 104] Connection reset by peer")];
     elapsed := 0 |}.

(** The peer accepts, writes bytes that are no serialized value, and
    closes. *)
Definition garbage : exchange :=
  {| on_connect := None; on_send := None;
     on_recv := [inr [x00; x01]]; elapsed := 0 |}.

Definition wire_env (p : list (list byte) -> exchange) : Environment :=
  {| pickle_dumps := Wire.dumps; pickle_loads := Wire.loads; peer := p |}.

Definition w0 : world := {| calls := []; now := 0 |}.

Definition status_is (s : string) : pyval := PyDict [("status"%string, PyStr s)].

Definition status_playing (b : bool) : pyval :=
  PyDict [("status"%string, PyStr "success");
          ("data"%string, PyDict [("is_playing"%string, PyBool b)])].

Definition status_error_not_playing : pyval :=
  PyDict [("status"%string, PyStr "error");
          ("data"%string, PyDict [("is_playing"%string, PyBool false)])].

(** Download succeeds, the player is idle, [play] is answered. *)
Definition env_idle : Environment :=
  wire_env (scripted [reply (status_is "success"); reply (status_playing false);
                      reply (status_is "played")]).

(** Download succeeds, the player is already playing. *)
Definition env_playing : Environment :=
  wire_env (scripted [reply (status_is "success"); reply (status_playing true);
                      reply (status_is "played")]).

(** Download succeeds, the status query is answered with an error. *)
Definition env_status_error : Environment :=
  wire_env (scripted [reply (status_is "success");
                      reply status_error_not_playing;
                      reply (status_is "played")]).

(** The download is answered with an error. *)
Definition env_download_error : Environment :=
  wire_env (scripted [reply (status_is "error"); reply (status_playing false);
                      reply (status_is "played")]).

(** The first status query reports success, the second another status. *)
Definition env_second_poll_other : Environment :=
  wire_env (scripted [reply (status_is "success"); reply (status_is "idle")]).

(** The peer accepts, writes [v] in two chunks split at [n], closes, and
    what it might have written after that is never read. *)
Definition reply_in_chunks (v : pyval) (n : nat) : exchange :=
  {| on_connect := None; on_send := None;
     on_recv := [inr (firstn n (Wire.dumps v)); inr (skipn n (Wire.dumps v));
                 inr []; inr [x00]];
     elapsed := 0 |}.

(** The peer accepts, writes one byte, and the connection times out. *)
Definition stalls_after_one_byte : exchange :=
  {| on_connect := None; on_send := None;
     on_recv := [inr [x80]; inl (mk_exn socket_timeout "timed out"); inr []];
     elapsed := 5 |}.

(** No peer is listening. *)
Definition env_unreachable : Environment := wire_env (scripted []).

(** Every call is answered with the same response. *)
Definition env_always (v : pyval) : Environment := wire_env (fun _ => reply v).

(** ** The example script *)

(** A line written by [print]: plain text, or the text of an f-string
    followed by the value it interpolates, whose rendering is Python's. *)
Inductive line : Type :=
| Text (s : string)
| Shown (label : string) (v : pyval).

Definition newline : string := String (ascii_of_nat 10) EmptyString.

Section Example.
Context {env : Environment}.

(** Methods that also write to the standard output. *)
Definition IO (A : Type) : Type :=
  list line -> client -> world -> result A * list line * client * world.

Definition io_ret {A} (a : A) : IO A := fun out c w => (Return a, out, c, w).

Definition io_bind {A B} (m : IO A) (k : A -> IO B) : IO B :=
  fun out c w =>
    match m out c w with
    | (Return a, out', c', w') => k a out' c' w'
    | (Raise e, out', c', w') => (Raise e, out', c', w')
    end.

(** [try: body  except Exception as e: handler e]. *)
Definition io_try {A} (body : IO A) (handler : exn -> IO A) : IO A :=
  fun out c w =>
    match body out c w with
    | (Return a, out', c', w') => (Return a, out', c', w')
    | (Raise e, out', c', w') => handler e out' c' w'
    end.

Definition print (l : line) : IO unit :=
  fun out c w => (Return tt, (out ++ [l])%list, c, w).

(** A method of the client, run from the script. *)
Definition method {A} (m : M A) : IO A :=
  fun out c w => match m c w with (r, c', w') => (r, out, c', w') end.

Notation "x <~ m ;; k" := (io_bind m (fun x => k))
  (at level 61, m at next level, right associativity).
Notation "m ~;; k" := (io_bind m (fun _ => k))
  (at level 61, right associativity).

Definition example_url : pyval :=
  PyStr "https://www.youtube.com/watch?v=dQw4w9WgXcQ".

(** The body of the [try] in [example_usage]. *)
Definition example_body : IO unit :=
  print (Text "Testing connection...") ~;;
  status <~ method get_status ;;
  flag <~ method is_connected ;;
  print (Shown "Connected: " flag) ~;;
  print (Shown "Status: " status) ~;;
  print (Text (newline ++ "Playing...")) ~;;
  result <~ method play ;;
  print (Shown "Play result: " result) ~;;
  method (time_sleep 2) ~;;
  print (Text (newline ++ "Pausing...")) ~;;
  result <~ method pause ;;
  print (Shown "Pause result: " result) ~;;
  method (time_sleep 1) ~;;
  print (Text (newline ++ "Setting volume to 80%...")) ~;;
  result <~ method (set_volume 80) ;;
  print (Shown "Volume result: " result) ~;;
  print (Text (newline ++ "Downloading YouTube video...")) ~;;
  result <~ method (download example_url) ;;
  print (Shown "Download result: " result) ~;;
  print (Text (newline ++ "Getting playlist...")) ~;;
  playlist <~ method get_playlist ;;
  print (Shown "Playlist: " playlist).

Definition advice : line :=
  Text "Make sure the Codem Music Player (YTm4.exe) is running!".

(** [example_usage()]: it makes its own client with the default host,
    port and timeout. *)
Definition example_usage (out : list line) (w : world)
  : result unit * list line * client * world :=
  io_try example_body
    (fun e =>
       print (Text ("Error: " ++ exn_str e)) ~;;
       print advice)
    out (__init__ "localhost" 65432 5) w.


End Example.

(** ** The make of the methods *)

Section Built.
Context {env : Environment}.

(** Every method is put together from the transport, the clock and
    steps that return or raise on the spot; [locals] are the classes of
    the exceptions raised on the spot. *)
Inductive built (locals : list exn_class) : forall A : Type, M A -> Prop :=
| built_ret (A : Type) (a : A) : built locals A (ret a)
| built_raise (A : Type) (e : exn) :
    In (exn_cls e) locals -> built locals A (raise e)
| built_time_time : built locals Z time_time
| built_time_sleep (n : Z) : built locals unit (time_sleep n)
| built_send_command (command : string) (params : pyval) :
    built locals pyval (_send_command command params)
| built_bind (A B : Type) (m : M A) (k : A -> M B) :
    built locals A m -> (forall a : A, built locals B (k a)) ->
    built locals B (bind m k).

(** The classes of the exceptions an operation raises by itself. *)
Definition local_errors (op : operation) : list exn_class :=
  match op with
  | SetVolume _ => [ValueError]
  | PlayUrl _ | GetCurrentTrackInfo | WaitForDownload _ => [AttributeError]
  | _ => []
  end.

(** No connection made from world [w] comes to a response, whatever the
    payload. *)
Definition peer_down (w : world) : Prop :=
  forall payload : list byte,
    exists (st : stage) (e : exn),
      outcome (next_exchange w payload) = inl (st, e).

End Built.

(** * Properties *)

(** ** The transport *)

Section TransportFacts.
Context {env : Environment}.

(** One call of the transport is one exchange: the payload is recorded,
    the clock moves, and the result and the flag follow the outcome of
    the exchange. *)
Lemma send_command_outcome (command : string) (params : pyval)
    (c : client) (w : world) :
  _send_command command params c w =
  let p := request_payload command params in
  match outcome (next_exchange w p) with
  | inr response =>
      (Return response, with_connected true c, after_exchange w p)
  | inl (_, e) =>
      (Raise (translated c e), with_connected false c, after_exchange w p)
  end.
Proof.
  unfold _send_command, try_except, bind, open_exchange, outcome,
    next_exchange, after_exchange, request_payload, translated,
    sock_connect, sock_send.
  cbn zeta.
  set (p := pickle_dumps _).
  set (classes := [socket_timeout; ConnectionRefusedError; ConnectionError]).
  destruct (on_connect (peer (calls w ++ [p]))) as [e|]; cbn -[isinstance].
  { destruct (isinstance e classes); reflexivity. }
  destruct (on_send (peer (calls w ++ [p]))) as [e|]; cbn -[isinstance].
  { destruct (isinstance e classes); reflexivity. }
  destruct (recv_loop (on_recv (peer (calls w ++ [p]))) []) as [e|data];
    cbn -[isinstance].
  { destruct (isinstance e classes); reflexivity. }
  destruct (pickle_loads data) as [e|response]; cbn -[isinstance].
  { destruct (isinstance e classes); reflexivity. }
  reflexivity.
Qed.

Lemma isinstance_connection_classes (e : exn) :
  isinstance e [socket_timeout; ConnectionRefusedError; ConnectionError] = true
  <-> In (exn_cls e) connection_classes.
Proof.
  unfold connection_classes.
  destruct e as [cls msg]; destruct cls; cbn; split; intro H;
    try reflexivity; try discriminate; try tauto;
    repeat (destruct H as [H|H]; try discriminate H); try contradiction.
Qed.

End TransportFacts.

(** ** C1: the kind of failure the transport raises *)

(** C1 (as stated, refuted): a failure while receiving that is neither a
    refused connection nor a timeout is claimed to surface as the
    communication failure.  When the peer resets the connection during
    [sock.recv], the exception is a [ConnectionResetError], which the clause
    [except (socket.timeout, ConnectionRefusedError, ConnectionError)]
    catches: the call raises the connection failure, not [RuntimeError]. *)
Lemma send_command_peer_reset_counterexample :
  let env := wire_env (scripted [reset_by_peer]) in
  outcome (next_exchange w0 (request_payload "play" PyNone))
  = inl (Receive,
         mk_exn ConnectionResetError "[Errno 104] Connection reset by peer")
  /\ fst (fst (_send_command "play" PyNone default_client w0))
     = Raise (mk_exn ConnectionError
                "Could not connect to Music Player at localhost:65432. Make sure the application is running.")
  /\ forall cause : string,
       fst (fst (_send_command "play" PyNone default_client w0))
       <> Raise (mk_exn RuntimeError cause).
Proof.
  cbv zeta. split; [reflexivity|]. split; [reflexivity|].
  intros cause H. vm_compute in H. discriminate H.
Qed.

(** C1 (amended): when a step of the exchange raises, at whatever step,
    [_send_command] raises [ConnectionError] with a message naming host and
    port if the exception is a timeout or any connection error (refused,
    reset, aborted, broken pipe), and otherwise raises [RuntimeError] whose
    message ends with [str] of the underlying exception; in both cases the
    flag is cleared. *)
Theorem send_command_failure_kinds `{Environment}
    (command : string) (params : pyval) (c : client) (w : world)
    (st : stage) (e : exn) :
  outcome (next_exchange w (request_payload command params)) = inl (st, e) ->
  (In (exn_cls e) connection_classes ->
   _send_command command params c w
   = (Raise (mk_exn ConnectionError
               ("Could not connect to Music Player at " ++ host c ++ ":"
                ++ str_int (port c)
                ++ ". Make sure the application is running.")),
      with_connected false c,
      after_exchange w (request_payload command params)))
  /\ (~ In (exn_cls e) connection_classes ->
      _send_command command params c w
      = (Raise (mk_exn RuntimeError
                  ("Error communicating with Music Player: " ++ exn_str e)),
         with_connected false c,
         after_exchange w (request_payload command params))).
Proof.
  intros Hout. rewrite send_command_outcome. cbv zeta. rewrite Hout.
  unfold translated.
  pose proof (isinstance_connection_classes e) as Hcls.
  destruct (isinstance e _); split; intro Hin.
  - reflexivity.
  - exfalso. apply Hin, Hcls. reflexivity.
  - apply Hcls in Hin. discriminate Hin.
  - reflexivity.
Qed.

Lemma send_command_failure_kinds_witness :
  @_send_command (wire_env (scripted [refused])) "play" PyNone default_client w0
  = (Raise (mk_exn ConnectionError
              ("Could not connect to Music Player at " ++ host default_client
               ++ ":" ++ str_int (port default_client)
               ++ ". Make sure the application is running.")),
     with_connected false default_client,
     @after_exchange (wire_env (scripted [refused])) w0
       (@request_payload (wire_env (scripted [refused])) "play" PyNone))
  /\ @_send_command (wire_env (scripted [garbage])) "play" PyNone
       default_client w0
     = (Raise (mk_exn RuntimeError
                 ("Error communicating with Music Player: "
                  ++ exn_str (mk_exn UnpicklingError "invalid load key"))),
        with_connected false default_client,
        @after_exchange (wire_env (scripted [garbage])) w0
          (@request_payload (wire_env (scripted [garbage])) "play" PyNone)).
Proof.
  split.
  - apply (proj1 (@send_command_failure_kinds (wire_env (scripted [refused]))
                    "play" PyNone default_client w0 Connect
                    (mk_exn ConnectionRefusedError
                       "[Errno 111] Connection refused") eq_refl)).
    cbn. tauto.
  - apply (proj2 (@send_command_failure_kinds (wire_env (scripted [garbage]))
                    "play" PyNone default_client w0 Deserialize
                    (mk_exn UnpicklingError "invalid load key") eq_refl)).
    cbn. intros [H|[H|[H|[H|[H|[H|[]]]]]]]; discriminate H.
Defined.

(** ** Single calls *)

Section Methods.
Context {env : Environment}.

Lemma send_command_calls (command : string) (params : pyval)
    (c : client) (w : world) :
  calls (snd (_send_command command params c w))
  = (calls w ++ [request_payload command params])%list.
Proof.
  rewrite send_command_outcome. cbv zeta.
  destruct (outcome _) as [[st e]|response]; reflexivity.
Qed.

Lemma py_get_dict {A} (d : list (string * pyval)) (key : string)
    (default : pyval) (k : pyval -> M A) (c : client) (w : world) :
  bind (py_get (PyDict d) key default) k c w
  = k (match dict_lookup d key with Some x => x | None => default end) c w.
Proof. reflexivity. Qed.

Lemma status_test (d : list (string * pyval)) :
  py_eq_str (match dict_lookup d "status" with Some x => x | None => PyNone end)
    "success"
  = reports_success d.
Proof. unfold reports_success. destruct (dict_lookup d "status"); reflexivity. Qed.

Lemma bind_run {A B} (m : M A) (k : A -> M B) (c : client) (w : world)
    (a : A) (c' : client) (w' : world) :
  m c w = (Return a, c', w') -> bind m k c w = k a c' w'.
Proof. intros Hm. unfold bind. rewrite Hm. reflexivity. Qed.

End Methods.

(** ** C3: [set_volume] *)

(** C3: for a volume within 0..100, [set_volume] makes exactly one network
    call, whose payload is the serialized request for [set_volume] with
    params [{volume: volume}]; for any other volume it raises [ValueError]
    and leaves the world, hence the list of calls, as it was. *)
Theorem set_volume_calls `{Environment} (volume : Z) (c : client) (w : world) :
  (0 <= volume <= 100 ->
   calls (snd (set_volume volume c w))
   = (calls w
      ++ [pickle_dumps
            (build_request "set_volume"
               (PyDict [("volume"%string, PyInt volume)]))])%list)
  /\ (~ 0 <= volume <= 100 ->
      set_volume volume c w
      = (Raise (mk_exn ValueError "Volume must be between 0 and 100"), c, w)).
Proof.
  unfold set_volume. split; intros Hv.
  - replace ((0 <=? volume) && (volume <=? 100)) with true
      by (symmetry; apply andb_true_iff; split; apply Z.leb_le; lia).
    cbn [negb]. apply send_command_calls.
  - replace ((0 <=? volume) && (volume <=? 100)) with false; [reflexivity|].
    symmetry. apply andb_false_iff.
    destruct (Z.leb_spec 0 volume); [|left; reflexivity].
    destruct (Z.leb_spec volume 100); [lia|right; reflexivity].
Qed.

Lemma set_volume_calls_witness :
  calls (snd (@set_volume env_unreachable 80 default_client w0))
  = (calls w0
     ++ [@pickle_dumps env_unreachable
           (build_request "set_volume"
              (PyDict [("volume"%string, PyInt 80)]))])%list
  /\ @set_volume env_unreachable 101 default_client w0
     = (Raise (mk_exn ValueError "Volume must be between 0 and 100"),
        default_client, w0).
Proof.
  split.
  - apply (proj1 (@set_volume_calls env_unreachable 80 default_client w0)). lia.
  - apply (proj2 (@set_volume_calls env_unreachable 101 default_client w0)). lia.
Defined.

(** ** C8: [load_playlist] *)

(** C8 (as stated, refuted): an explicitly given empty list is claimed to
    be sent as [files].  [if files:] tests truthiness, so the empty list is
    treated like no argument: the one request sent has empty params. *)
Lemma load_playlist_empty_list_counterexample :
  let env := env_unreachable in
  calls (snd (load_playlist (PyList []) default_client w0))
  = [Wire.dumps (build_request "load_playlist" (PyDict []))]
  /\ Wire.loads (Wire.dumps (build_request "load_playlist" (PyDict [])))
     = inr (PyDict [("command"%string, PyStr "load_playlist");
                    ("params"%string, PyDict [])])
  /\ calls (snd (load_playlist (PyList []) default_client w0))
     <> [Wire.dumps
           (build_request "load_playlist"
              (PyDict [("files"%string, PyList [])]))].
Proof.
  cbv zeta. split; [reflexivity|]. split; [reflexivity|].
  intros H. vm_compute in H. discriminate H.
Qed.

(** C8 (amended): [load_playlist(files)] makes one call for the command
    [load_playlist]; its params are [{files: files}] when [files] is truthy
    (a non-empty list), and empty when [files] is falsy: not given, [None],
    or an empty list. *)
Theorem load_playlist_params `{Environment} (files : pyval)
    (c : client) (w : world) :
  (truthy files = true ->
   calls (snd (load_playlist files c w))
   = (calls w
      ++ [pickle_dumps
            (build_request "load_playlist"
               (PyDict [("files"%string, files)]))])%list)
  /\ (truthy files = false ->
      calls (snd (load_playlist files c w))
      = (calls w
         ++ [pickle_dumps (build_request "load_playlist" (PyDict []))])%list).
Proof.
  unfold load_playlist. split; intros Ht; rewrite Ht;
    rewrite send_command_calls; reflexivity.
Qed.

Lemma load_playlist_params_witness :
  calls (snd (@load_playlist env_unreachable (PyList [PyStr "a.mp3"])
                default_client w0))
  = (calls w0
     ++ [@pickle_dumps env_unreachable
           (build_request "load_playlist"
              (PyDict [("files"%string, PyList [PyStr "a.mp3"])]))])%list
  /\ calls (snd (@load_playlist env_unreachable PyNone default_client w0))
     = (calls w0
        ++ [@pickle_dumps env_unreachable
              (build_request "load_playlist" (PyDict []))])%list.
Proof.
  split.
  - apply (proj1 (@load_playlist_params env_unreachable
                    (PyList [PyStr "a.mp3"]) default_client w0)).
    reflexivity.
  - apply (proj2 (@load_playlist_params env_unreachable PyNone
                    default_client w0)).
    reflexivity.
Defined.

(** ** C6: [get_current_track_info] *)

(** C6: when [get_status] returns a mapping, [get_current_track_info]
    returns its [data] field ([None] if it has none) if the mapping's
    [status] is ["success"], and [None] for any other status. *)
Theorem get_current_track_info_result `{Environment}
    (c : client) (w : world) (d : list (string * pyval))
    (c' : client) (w' : world) :
  get_status c w = (Return (PyDict d), c', w') ->
  (reports_success d = true ->
   get_current_track_info c w = (Return (data_field d), c', w'))
  /\ (reports_success d = false ->
      get_current_track_info c w = (Return PyNone, c', w')).
Proof.
  intros Hst. unfold get_current_track_info.
  rewrite (bind_run _ _ _ _ _ _ _ Hst), py_get_dict, status_test.
  split; intros Hs; rewrite Hs; reflexivity.
Qed.

Lemma get_current_track_info_result_witness :
  @get_current_track_info (env_always (status_playing true)) default_client w0
  = (Return (data_field [("status"%string, PyStr "success");
                         ("data"%string,
                          PyDict [("is_playing"%string, PyBool true)])]),
     with_connected true default_client,
     @after_exchange (env_always (status_playing true)) w0
       (@request_payload (env_always (status_playing true))
          "get_status" PyNone))
  /\ @get_current_track_info (env_always (status_is "error")) default_client w0
     = (Return PyNone,
        with_connected true default_client,
        @after_exchange (env_always (status_is "error")) w0
          (@request_payload (env_always (status_is "error"))
             "get_status" PyNone)).
Proof.
  split.
  - apply (proj1 (@get_current_track_info_result
                    (env_always (status_playing true)) default_client w0
                    _ _ _ eq_refl)).
    reflexivity.
  - apply (proj2 (@get_current_track_info_result
                    (env_always (status_is "error")) default_client w0
                    _ _ _ eq_refl)).
    reflexivity.
Defined.

(** ** C4 and C10: [play_url] *)

Section PlayUrl.
Context {env : Environment}.

(** [play_url] once the download and the status query have returned
    mappings. *)
Lemma play_url_unfold (url : pyval) (c : client) (w : world)
    (d1 : list (string * pyval)) (c1 : client) (w1 : world) :
  download url c w = (Return (PyDict d1), c1, w1) ->
  play_url url c w
  = if reports_success d1 then
      match get_status c1 (slept 1 w1) with
      | (Return status, c2, w2) =>
          (s' <- py_get status "status" PyNone ;;
           if py_eq_str s' "success" then
             data <- py_get status "data" (PyDict []) ;;
             playing <- py_get data "is_playing" PyNone ;;
             if negb (truthy playing) then play else ret (PyDict d1)
           else ret (PyDict d1)) c2 w2
      | (Raise e, c2, w2) => (Raise e, c2, w2)
      end
    else (Return (PyDict d1), c1, w1).
Proof.
  intros Hd. unfold play_url.
  rewrite (bind_run _ _ _ _ _ _ _ Hd), py_get_dict, status_test.
  destruct (reports_success d1); [|reflexivity].
  unfold bind at 1. cbn [time_sleep]. unfold bind at 1.
  fold (slept 1 w1).
  destruct (get_status c1 (slept 1 w1)) as [[[status|e] c2] w2]; reflexivity.
Qed.

Lemma download_calls (url : pyval) (c : client) (w : world) :
  calls (snd (download url c w))
  = (calls w ++ [request_payload "download" (PyDict [("url"%string, url)])])%list.
Proof. apply send_command_calls. Qed.

Lemma get_status_calls (c : client) (w : world) :
  calls (snd (get_status c w))
  = (calls w ++ [request_payload "get_status" PyNone])%list.
Proof. apply send_command_calls. Qed.

End PlayUrl.

(** C10: when the download reports success and the status query returns a
    mapping whose status is not ["success"], [play_url] returns the download
    result, and the calls made are the download and the status query only:
    no [play] is issued. *)
Theorem play_url_status_not_success `{Environment}
    (url : pyval) (c : client) (w : world)
    (d1 : list (string * pyval)) (c1 : client) (w1 : world)
    (d2 : list (string * pyval)) (c2 : client) (w2 : world) :
  download url c w = (Return (PyDict d1), c1, w1) ->
  reports_success d1 = true ->
  get_status c1 (slept 1 w1) = (Return (PyDict d2), c2, w2) ->
  reports_success d2 = false ->
  play_url url c w = (Return (PyDict d1), c2, w2)
  /\ calls w2
     = (calls w
        ++ [request_payload "download" (PyDict [("url"%string, url)]);
            request_payload "get_status" PyNone])%list.
Proof.
  intros Hd Hs1 Hst Hs2. split.
  - rewrite (play_url_unfold _ _ _ _ _ _ Hd), Hs1, Hst, py_get_dict,
      status_test, Hs2.
    reflexivity.
  - pose proof (download_calls url c w) as Hc1. rewrite Hd in Hc1.
    pose proof (get_status_calls c1 (slept 1 w1)) as Hc2. rewrite Hst in Hc2.
    cbn [snd] in Hc1, Hc2. rewrite Hc2. cbn [slept calls]. rewrite Hc1.
    rewrite <- app_assoc. reflexivity.
Qed.

Lemma play_url_status_not_success_witness :
  @play_url env_status_error (PyStr "u") default_client w0
  = (Return (PyDict [("status"%string, PyStr "success")]),
     with_connected true default_client,
     snd (@get_status env_status_error (with_connected true default_client)
            (slept 1 (snd (@download env_status_error (PyStr "u")
                             default_client w0)))))
  /\ calls (snd (@get_status env_status_error
                   (with_connected true default_client)
                   (slept 1 (snd (@download env_status_error (PyStr "u")
                                    default_client w0)))))
     = (calls w0
        ++ [@request_payload env_status_error "download"
              (PyDict [("url"%string, PyStr "u")]);
            @request_payload env_status_error "get_status" PyNone])%list.
Proof.
  apply (@play_url_status_not_success env_status_error (PyStr "u")
           default_client w0 _ _ _
           [("status"%string, PyStr "error");
            ("data"%string, PyDict [("is_playing"%string, PyBool false)])]
           _ _ eq_refl eq_refl eq_refl eq_refl).
Defined.

(** C4 (as stated, refuted): whenever the download did not fail and the
    player is not already playing, [play] is claimed to be issued and its
    result returned.  Here the download reports success and the status
    query answers [{status: "error", data: {is_playing: False}}]: the
    player is not playing, yet [play_url] makes two calls only and returns
    the download result, not the answer ["played"] that the peer holds
    ready for a third call. *)
Lemma play_url_status_error_counterexample :
  let env := env_status_error in
  fst (fst (download (PyStr "u") default_client w0))
  = Return (status_is "success")
  /\ is_playing_field [("status"%string, PyStr "error");
                       ("data"%string,
                        PyDict [("is_playing"%string, PyBool false)])]
     = Some (PyBool false)
  /\ fst (fst (play_url (PyStr "u") default_client w0))
     = Return (status_is "success")
  /\ calls (snd (play_url (PyStr "u") default_client w0))
     = [request_payload "download" (PyDict [("url"%string, PyStr "u")]);
        request_payload "get_status" PyNone]
  /\ fst (fst (play_url (PyStr "u") default_client w0))
     <> fst (fst (play (with_connected true default_client)
                    (snd (play_url (PyStr "u") default_client w0)))).
Proof.
  cbv zeta. repeat (split; [reflexivity|]).
  intros H. vm_compute in H. discriminate H.
Qed.

(** C4 (amended): with the download and the status query returning
    mappings, [play_url] returns the download result if the download does
    not report success, if the status query does not report success, or if
    the status query reports success with a truthy [is_playing]; when both
    report success and [is_playing] is falsy or absent, it issues [play]
    and its outcome is the outcome of that call. *)
Theorem play_url_result `{Environment}
    (url : pyval) (c : client) (w : world)
    (d1 : list (string * pyval)) (c1 : client) (w1 : world) :
  download url c w = (Return (PyDict d1), c1, w1) ->
  (reports_success d1 = false ->
   play_url url c w = (Return (PyDict d1), c1, w1))
  /\ (reports_success d1 = true ->
      forall (d2 : list (string * pyval)) (c2 : client) (w2 : world),
        get_status c1 (slept 1 w1) = (Return (PyDict d2), c2, w2) ->
        (reports_success d2 = false ->
         play_url url c w = (Return (PyDict d1), c2, w2))
        /\ (reports_success d2 = true ->
            forall p : pyval,
              is_playing_field d2 = Some p ->
              (truthy p = true ->
               play_url url c w = (Return (PyDict d1), c2, w2))
              /\ (truthy p = false -> play_url url c w = play c2 w2))).
Proof.
  intros Hd. rewrite (play_url_unfold _ _ _ _ _ _ Hd).
  split; intros Hs1; rewrite Hs1; [reflexivity|].
  intros d2 c2 w2 Hst. rewrite Hst, py_get_dict, status_test.
  split; intros Hs2; rewrite Hs2; [reflexivity|].
  intros p Hp. unfold is_playing_field in Hp. rewrite py_get_dict.
  destruct (dict_lookup d2 "data") as [[| | | | |data]|];
    try discriminate Hp; injection Hp as <-;
    rewrite py_get_dict; cbn [dict_lookup];
    (split; intros Ht; rewrite Ht; reflexivity).
Qed.

Lemma play_url_result_witness :
  @play_url env_download_error (PyStr "u") default_client w0
  = (Return (PyDict [("status"%string, PyStr "error")]),
     with_connected true default_client,
     snd (@download env_download_error (PyStr "u") default_client w0))
  /\ @play_url env_status_error (PyStr "u") default_client w0
     = (Return (PyDict [("status"%string, PyStr "success")]),
        with_connected true default_client,
        snd (@get_status env_status_error (with_connected true default_client)
               (slept 1 (snd (@download env_status_error (PyStr "u")
                                default_client w0)))))
  /\ @play_url env_playing (PyStr "u") default_client w0
     = (Return (PyDict [("status"%string, PyStr "success")]),
        with_connected true default_client,
        snd (@get_status env_playing (with_connected true default_client)
               (slept 1 (snd (@download env_playing (PyStr "u")
                                default_client w0)))))
  /\ @play_url env_idle (PyStr "u") default_client w0
     = @play env_idle (with_connected true default_client)
         (snd (@get_status env_idle (with_connected true default_client)
                 (slept 1 (snd (@download env_idle (PyStr "u")
                                  default_client w0))))).
Proof.
  split; [|split; [|split]].
  - apply (proj1 (@play_url_result env_download_error (PyStr "u")
                    default_client w0 _ _ _ eq_refl)).
    reflexivity.
  - apply (proj1 (proj2 (@play_url_result env_status_error (PyStr "u")
                           default_client w0 _ _ _ eq_refl) eq_refl
                    [("status"%string, PyStr "error");
                     ("data"%string,
                      PyDict [("is_playing"%string, PyBool false)])]
                    _ _ eq_refl)).
    reflexivity.
  - apply (proj1 (proj2 (proj2 (@play_url_result env_playing (PyStr "u")
                                  default_client w0 _ _ _ eq_refl) eq_refl
                           [("status"%string, PyStr "success");
                            ("data"%string,
                             PyDict [("is_playing"%string, PyBool true)])]
                           _ _ eq_refl)
                    eq_refl (PyBool true) eq_refl)).
    reflexivity.
  - apply (proj2 (proj2 (proj2 (@play_url_result env_idle (PyStr "u")
                                  default_client w0 _ _ _ eq_refl) eq_refl
                           [("status"%string, PyStr "success");
                            ("data"%string,
                             PyDict [("is_playing"%string, PyBool false)])]
                           _ _ eq_refl)
                    eq_refl (PyBool false) eq_refl)).
    reflexivity.
Defined.

(** ** C2: the flag after an operation *)

Section Flag.
Context {env : Environment}.

Lemma ffc_pure {A} (m : M A) :
  (forall c w, snd (m c w) = w /\ snd (fst (m c w)) = c) ->
  flag_follows_calls m.
Proof.
  intros Hm c w. destruct (Hm c w) as [Hw Hc]. exists [].
  rewrite Hw, Hc, app_nil_r. split; reflexivity.
Qed.

Lemma ffc_ret {A} (a : A) : flag_follows_calls (ret a).
Proof. apply ffc_pure. intros; split; reflexivity. Qed.

Lemma ffc_raise {A} (e : exn) : flag_follows_calls (@raise A e).
Proof. apply ffc_pure. intros; split; reflexivity. Qed.

Lemma ffc_py_get (v : pyval) (key : string) (default : pyval) :
  flag_follows_calls (py_get v key default).
Proof. destruct v; first [apply ffc_ret | apply ffc_raise]. Qed.

Lemma ffc_time_time : flag_follows_calls time_time.
Proof. apply ffc_pure. intros; split; reflexivity. Qed.

Lemma ffc_time_sleep (n : Z) : flag_follows_calls (time_sleep n).
Proof.
  intros c w. exists []. cbn. rewrite app_nil_r. split; reflexivity.
Qed.

Lemma ffc_bind {A B} (m : M A) (k : A -> M B) :
  flag_follows_calls m -> (forall a, flag_follows_calls (k a)) ->
  flag_follows_calls (bind m k).
Proof.
  intros Hm Hk c w. unfold bind.
  destruct (Hm c w) as (n1 & Hc1 & Hf1).
  destruct (m c w) as [[[a|e] c1] w1]; cbn [fst snd] in *.
  - destruct (Hk a c1 w1) as (n2 & Hc2 & Hf2).
    destruct (k a c1 w1) as [[r c2] w2]; cbn [fst snd] in *.
    exists (n1 ++ n2)%list. split.
    + rewrite Hc2, Hc1, app_assoc. reflexivity.
    + destruct n2 as [|x n2].
      * rewrite app_nil_r in *. rewrite Hf2, Hf1, Hc2. reflexivity.
      * rewrite Hf2. destruct n1; reflexivity.
  - exists n1. split; assumption.
Qed.

Lemma ffc_send_command (command : string) (params : pyval) :
  flag_follows_calls (_send_command command params).
Proof.
  intros c w. exists [request_payload command params].
  rewrite send_command_outcome. cbv zeta.
  unfold round_trip_ok, next_exchange.
  destruct (outcome (peer (calls w ++ [request_payload command params])))
    as [[st e]|response] eqn:Hout; cbn [fst snd after_exchange calls];
    rewrite Hout; split; reflexivity.
Qed.

Lemma ffc_wait_loop (fuel : nat) (start_time timeout_ : Z) :
  flag_follows_calls (wait_loop fuel start_time timeout_).
Proof.
  induction fuel as [|fuel IH]; cbn [wait_loop].
  - apply ffc_ret.
  - apply ffc_bind; [apply ffc_time_time|]. intros t.
    destruct (t - start_time <? timeout_); [|apply ffc_ret].
    apply ffc_bind; [apply ffc_send_command|]. intros status.
    apply ffc_bind; [apply ffc_py_get|]. intros s.
    destruct (py_eq_str s "success"); [|apply ffc_ret].
    apply ffc_bind; [apply ffc_time_sleep|]. intros _. apply IH.
Qed.

Lemma ffc_some {A} (m : M A) : flag_follows_calls m -> flag_follows_calls (some m).
Proof. intros Hm. apply ffc_bind; [exact Hm|]. intros a. apply ffc_ret. Qed.

Lemma ffc_run (fuel : nat) (op : operation) : flag_follows_calls (run fuel op).
Proof.
  destruct op; cbn [run]; try (apply ffc_some; apply ffc_send_command).
  - apply ffc_some. unfold set_volume.
    destruct (negb _); [apply ffc_raise | apply ffc_send_command].
  - apply ffc_some. unfold play_url.
    apply ffc_bind; [apply ffc_send_command|]. intros result.
    apply ffc_bind; [apply ffc_py_get|]. intros s.
    destruct (py_eq_str s "success"); [|apply ffc_ret].
    apply ffc_bind; [apply ffc_time_sleep|]. intros _.
    apply ffc_bind; [apply ffc_send_command|]. intros status.
    apply ffc_bind; [apply ffc_py_get|]. intros s'.
    destruct (py_eq_str s' "success"); [|apply ffc_ret].
    apply ffc_bind; [apply ffc_py_get|]. intros data.
    apply ffc_bind; [apply ffc_py_get|]. intros playing.
    destruct (negb _); [apply ffc_send_command | apply ffc_ret].
  - apply ffc_some. unfold get_current_track_info.
    apply ffc_bind; [apply ffc_send_command|]. intros status.
    apply ffc_bind; [apply ffc_py_get|]. intros s.
    destruct (py_eq_str s "success"); [apply ffc_py_get | apply ffc_ret].
  - unfold wait_for_download.
    apply ffc_bind; [apply ffc_time_time|]. intros t. apply ffc_wait_loop.
Qed.

End Flag.

(** C2 (as stated, refuted): the flag is claimed to be false after any
    failure, also one raised before any network call.  After a successful
    [get_status] the flag is true; [set_volume(101)] then raises
    [ValueError] without touching the flag, which stays true. *)
Lemma set_volume_failure_keeps_flag_counterexample :
  let env := env_always (status_is "success") in
  (get_status ;;; set_volume 101) default_client w0
  = (Raise (mk_exn ValueError "Volume must be between 0 and 100"),
     with_connected true default_client,
     after_exchange w0 (request_payload "get_status" PyNone))
  /\ connected
       (snd (fst ((get_status ;;; set_volume 101) default_client w0)))
     = true.
Proof. cbv zeta. split; reflexivity. Qed.

(** C2 (amended): after every operation the flag is that of the last
    network call the operation made, true if that round trip succeeded and
    false if it failed, and an operation that makes no network call (as
    [set_volume] when it rejects its argument) leaves the flag as it was;
    for the transport itself the flag is true exactly when the call
    returns. *)
Theorem flag_after_operation `{Environment}
    (fuel : nat) (op : operation) (c : client) (w : world) :
  (exists new : list (list byte),
     calls (snd (run fuel op c w)) = (calls w ++ new)%list
     /\ connected (snd (fst (run fuel op c w)))
        = match new with
          | [] => connected c
          | _ :: _ => round_trip_ok (peer (calls (snd (run fuel op c w))))
          end)
  /\ (forall (command : string) (params : pyval),
        connected (snd (fst (_send_command command params c w)))
        = match fst (fst (_send_command command params c w)) with
          | Return _ => true
          | Raise _ => false
          end).
Proof.
  split.
  - apply ffc_run.
  - intros command params. rewrite send_command_outcome. cbv zeta.
    destruct (outcome _) as [[st e]|response]; reflexivity.
Qed.

(** ** C9: the flag is only observed *)

Section Blind.
Context {env : Environment}.

Lemma with_connected_twice (b b' : bool) (c : client) :
  with_connected b' (with_connected b c) = with_connected b' c.
Proof. reflexivity. Qed.

Lemma blind_pure {A} (r : result A) (f : world -> world) :
  flag_blind (fun c w => (r, c, f w)).
Proof. intros c w b. cbn. repeat split. exists b. reflexivity. Qed.

Lemma blind_ret {A} (a : A) : flag_blind (ret a).
Proof. apply (blind_pure (Return a) (fun w => w)). Qed.

Lemma blind_raise {A} (e : exn) : flag_blind (@raise A e).
Proof. apply (blind_pure (Raise e) (fun w => w)). Qed.

Lemma blind_py_get (v : pyval) (key : string) (default : pyval) :
  flag_blind (py_get v key default).
Proof. destruct v; first [apply blind_ret | apply blind_raise]. Qed.

Lemma blind_time_time : flag_blind time_time.
Proof. intros c w b. cbn. repeat split. exists b. reflexivity. Qed.

Lemma blind_time_sleep (n : Z) : flag_blind (time_sleep n).
Proof. apply (blind_pure (Return tt) (slept n)). Qed.

Lemma blind_bind {A B} (m : M A) (k : A -> M B) :
  flag_blind m -> (forall a, flag_blind (k a)) -> flag_blind (bind m k).
Proof.
  intros Hm Hk c w b. unfold bind.
  destruct (Hm c w b) as (Hr & Hw & b1 & Hc).
  destruct (m c w) as [[r c1] w1], (m (with_connected b c) w) as [[r' c1'] w1'].
  cbn [fst snd] in *. subst r' w1' c1'.
  destruct r as [a|e].
  - apply Hk.
  - cbn. repeat split. exists b1. reflexivity.
Qed.

Lemma blind_send_command (command : string) (params : pyval) :
  flag_blind (_send_command command params).
Proof.
  intros c w b. rewrite !send_command_outcome. cbv zeta.
  destruct (outcome _) as [[st e]|response]; cbn [fst snd].
  - repeat split. exists false. reflexivity.
  - repeat split. exists true. reflexivity.
Qed.

Lemma blind_wait_loop (fuel : nat) (start_time timeout_ : Z) :
  flag_blind (wait_loop fuel start_time timeout_).
Proof.
  induction fuel as [|fuel IH]; cbn [wait_loop].
  - apply blind_ret.
  - apply blind_bind; [apply blind_time_time|]. intros t.
    destruct (t - start_time <? timeout_); [|apply blind_ret].
    apply blind_bind; [apply blind_send_command|]. intros status.
    apply blind_bind; [apply blind_py_get|]. intros s.
    destruct (py_eq_str s "success"); [|apply blind_ret].
    apply blind_bind; [apply blind_time_sleep|]. intros _. apply IH.
Qed.

Lemma blind_some {A} (m : M A) : flag_blind m -> flag_blind (some m).
Proof. intros Hm. apply blind_bind; [exact Hm|]. intros a. apply blind_ret. Qed.

Lemma blind_run (fuel : nat) (op : operation) : flag_blind (run fuel op).
Proof.
  destruct op; cbn [run]; try (apply blind_some; apply blind_send_command).
  - apply blind_some. unfold set_volume.
    destruct (negb _); [apply blind_raise | apply blind_send_command].
  - apply blind_some. unfold play_url.
    apply blind_bind; [apply blind_send_command|]. intros result.
    apply blind_bind; [apply blind_py_get|]. intros s.
    destruct (py_eq_str s "success"); [|apply blind_ret].
    apply blind_bind; [apply blind_time_sleep|]. intros _.
    apply blind_bind; [apply blind_send_command|]. intros status.
    apply blind_bind; [apply blind_py_get|]. intros s'.
    destruct (py_eq_str s' "success"); [|apply blind_ret].
    apply blind_bind; [apply blind_py_get|]. intros data.
    apply blind_bind; [apply blind_py_get|]. intros playing.
    destruct (negb _); [apply blind_send_command | apply blind_ret].
  - apply blind_some. unfold get_current_track_info.
    apply blind_bind; [apply blind_send_command|]. intros status.
    apply blind_bind; [apply blind_py_get|]. intros s.
    destruct (py_eq_str s "success"); [apply blind_py_get | apply blind_ret].
  - unfold wait_for_download.
    apply blind_bind; [apply blind_time_time|]. intros t. apply blind_wait_loop.
Qed.

End Blind.

(** C9: for every operation (the transport call with any command and
    params, and every method built on it), two runs from clients that
    differ only in the flag return the same result and leave the same
    world: the same payloads were sent to the peer, in the same order, and
    the clock reads the same. *)
Theorem flag_is_observational `{Environment}
    (fuel : nat) (op : operation) (c : client) (w : world) (b : bool) :
  fst (fst (run fuel op (with_connected b c) w)) = fst (fst (run fuel op c w))
  /\ calls (snd (run fuel op (with_connected b c) w))
     = calls (snd (run fuel op c w))
  /\ snd (run fuel op (with_connected b c) w) = snd (run fuel op c w).
Proof.
  destruct (blind_run fuel op c w b) as (Hr & Hw & _).
  rewrite Hr, Hw. repeat split.
Qed.

(** ** C5: [wait_for_download] *)

Section Wait.
Context {env : Environment}.

Lemma time_before_ge (w : world) (k : nat) : Z.of_nat k <= time_before w k.
Proof.
  induction k as [|k IH]; [reflexivity|].
  cbn [time_before]. lia.
Qed.

Lemma time_before_mono (w : world) (j k : nat) :
  (j <= k)%nat -> time_before w j <= time_before w k.
Proof.
  induction 1 as [|k Hle IH]; [lia|]. cbn [time_before]. lia.
Qed.

Lemma poll_is_next (w : world) (j : nat) :
  next_exchange (world_at w j) (request_payload "get_status" PyNone)
  = poll w j.
Proof.
  unfold next_exchange, poll, world_at. cbn [calls].
  rewrite <- app_assoc, <- repeat_cons. reflexivity.
Qed.

Lemma world_at_next (w : world) (j : nat) :
  slept 1 (after_exchange (world_at w j) (request_payload "get_status" PyNone))
  = world_at w (S j).
Proof.
  unfold slept, after_exchange. rewrite poll_is_next.
  unfold world_at. cbn [calls now time_before].
  rewrite <- app_assoc, <- repeat_cons. f_equal. lia.
Qed.

(** One turn of the loop at the [j]-th poll. *)
Lemma wait_loop_turn (fuel : nat) (timeout_ : Z) (c : client) (w : world)
    (j : nat) :
  wait_loop (S fuel) (now w) timeout_ c (world_at w j)
  = if time_before w j <? timeout_ then
      match outcome (poll w j) with
      | inr (PyDict d) =>
          if reports_success d then
            wait_loop fuel (now w) timeout_ (with_connected true c)
              (world_at w (S j))
          else
            (Return (Some (PyBool true)), with_connected true c,
             after_exchange (world_at w j)
               (request_payload "get_status" PyNone))
      | inr _ =>
          (Raise (mk_exn AttributeError "object has no attribute 'get'"),
           with_connected true c,
           after_exchange (world_at w j)
             (request_payload "get_status" PyNone))
      | inl (_, e) =>
          (Raise (translated c e), with_connected false c,
           after_exchange (world_at w j)
             (request_payload "get_status" PyNone))
      end
    else (Return (Some (PyBool false)), c, world_at w j).
Proof.
  cbn [wait_loop]. unfold bind at 1. cbn [time_time].
  replace (now (world_at w j) - now w) with (time_before w j)
    by (unfold world_at; cbn [now]; lia).
  destruct (time_before w j <? timeout_); [|reflexivity].
  unfold bind at 1, get_status. rewrite send_command_outcome. cbv zeta.
  rewrite poll_is_next.
  destruct (outcome (poll w j)) as [[st e]|response]; [reflexivity|].
  destruct response as [| | | | |d]; try reflexivity.
  rewrite py_get_dict, status_test.
  destruct (reports_success d); [|reflexivity].
  unfold bind at 1. cbn [time_sleep].
  fold (slept 1 (after_exchange (world_at w j)
                   (request_payload "get_status" PyNone))).
  rewrite world_at_next. reflexivity.
Qed.

(** Every poll up to the deadline reports success: the loop runs to the
    deadline. *)
Lemma wait_loop_all_success (timeout_ : Z) (w : world) :
  (forall i, (i < Z.to_nat timeout_)%nat -> poll_reports true (poll w i)) ->
  forall (fuel j : nat) (c : client),
    (j <= Z.to_nat timeout_)%nat ->
    (Z.to_nat timeout_ - j < fuel)%nat ->
    (forall i, (i < j)%nat -> time_before w i < timeout_) ->
    exists (n : nat) (c' : client),
      (n <= Z.to_nat timeout_)%nat
      /\ wait_loop fuel (now w) timeout_ c (world_at w j)
         = (Return (Some (PyBool false)), c', world_at w n)
      /\ timeout_ <= time_before w n
      /\ forall i, (i < n)%nat -> time_before w i < timeout_.
Proof.
  intros Hall. induction fuel as [|fuel IH]; intros j c Hj Hfuel Hbefore;
    [lia|].
  rewrite wait_loop_turn.
  destruct (Z.ltb_spec (time_before w j) timeout_) as [Hlt|Hge].
  - pose proof (time_before_ge w j) as Hjt.
    assert (Hjn : (j < Z.to_nat timeout_)%nat) by lia.
    destruct (Hall j Hjn) as (d & Hout & Hs). rewrite Hout, Hs.
    apply IH; [lia|lia|].
    intros i Hi. destruct (Nat.eq_dec i j) as [->|Hne]; [exact Hlt|].
    apply Hbefore. lia.
  - exists j, c. repeat split; assumption.
Qed.

(** The polls before the [k]-th report success, the [k]-th falls before
    the deadline and reports another status: the loop stops there. *)
Lemma wait_loop_first_other (timeout_ : Z) (w : world) (k : nat) :
  (forall i, (i < k)%nat -> poll_reports true (poll w i)) ->
  poll_reports false (poll w k) ->
  time_before w k < timeout_ ->
  forall (fuel j : nat) (c : client),
    (j <= k)%nat ->
    (k - j < fuel)%nat ->
    exists c' : client,
      wait_loop fuel (now w) timeout_ c (world_at w j)
      = (Return (Some (PyBool true)), c',
         after_exchange (world_at w k) (request_payload "get_status" PyNone)).
Proof.
  intros Hbefore (d & Hout & Hs) Hk.
  induction fuel as [|fuel IH]; intros j c Hj Hfuel; [lia|].
  rewrite wait_loop_turn.
  pose proof (time_before_mono w j k Hj) as Hmono.
  destruct (Z.ltb_spec (time_before w j) timeout_) as [_|Hge]; [|lia].
  destruct (Nat.eq_dec j k) as [->|Hne].
  - rewrite Hout, Hs. eexists. reflexivity.
  - destruct (Hbefore j) as (d' & Hout' & Hs'); [lia|].
    rewrite Hout', Hs'. apply IH; lia.
Qed.

(** With fuel beyond the time left, the loop comes to a result. *)
Lemma wait_loop_total (fuel : nat) (start_time timeout_ : Z)
    (c : client) (w : world) :
  (Z.to_nat (timeout_ - (now w - start_time)) < fuel)%nat ->
  fst (fst (wait_loop fuel start_time timeout_ c w)) <> Return None.
Proof.
  revert c w. induction fuel as [|fuel IH]; intros c w Hfuel; [lia|].
  cbn [wait_loop]. unfold bind at 1. cbn [time_time].
  destruct (Z.ltb_spec (now w - start_time) timeout_) as [Hlt|Hge];
    [|discriminate].
  unfold bind at 1, get_status. rewrite send_command_outcome. cbv zeta.
  destruct (outcome _) as [[st e]|response]; [discriminate|].
  destruct response as [| | | | |d]; try discriminate.
  rewrite py_get_dict, status_test.
  destruct (reports_success d); [|discriminate].
  unfold bind at 1. cbn [time_sleep]. apply IH.
  cbn [now after_exchange]. lia.
Qed.

Lemma world_at_0 (w : world) : world_at w 0 = w.
Proof.
  destruct w as [cs t]. unfold world_at. cbn. rewrite app_nil_r.
  f_equal. lia.
Qed.

Lemma wait_for_download_unfold (fuel : nat) (timeout_ : Z)
    (c : client) (w : world) :
  wait_for_download fuel timeout_ c w
  = wait_loop fuel (now w) timeout_ c (world_at w 0).
Proof. rewrite world_at_0. reflexivity. Qed.

End Wait.

Lemma time_before_no_latency `{Environment} (w : world) (m : nat) :
  (forall i, (i < m)%nat -> elapsed (poll w i) = 0%N) ->
  forall j, (j <= m)%nat -> time_before w j = Z.of_nat j.
Proof.
  intros Hzero. induction j as [|j IH]; intros Hj; [reflexivity|].
  cbn [time_before]. rewrite IH, Hzero by lia. lia.
Qed.

(** C5: with fuel beyond [timeout], [wait_for_download(timeout)] comes to
    a result.  If every poll up to the deadline reports status
    ["success"], it returns [False] after [n <= timeout] polls of
    [get_status], each followed by one unit of sleep, the first poll at
    which the deadline has passed being the [n]-th; when the exchanges
    take no time, [n = timeout].  If the polls before the [k]-th report
    success and the [k]-th, begun before the deadline, reports any other
    status, it returns [True] and that poll is the last call made. *)
Theorem wait_for_download_polls `{Environment}
    (fuel : nat) (timeout_ : Z) (c : client) (w : world) :
  (Z.to_nat timeout_ < fuel)%nat ->
  fst (fst (wait_for_download fuel timeout_ c w)) <> Return None
  /\ ((forall i, (i < Z.to_nat timeout_)%nat -> poll_reports true (poll w i)) ->
      exists n : nat,
        (n <= Z.to_nat timeout_)%nat
        /\ fst (fst (wait_for_download fuel timeout_ c w))
           = Return (Some (PyBool false))
        /\ snd (wait_for_download fuel timeout_ c w) = world_at w n
        /\ timeout_ <= time_before w n
        /\ (forall i, (i < n)%nat -> time_before w i < timeout_)
        /\ ((forall i, (i < Z.to_nat timeout_)%nat ->
                       elapsed (poll w i) = 0%N) ->
            n = Z.to_nat timeout_))
  /\ (forall k : nat,
        (forall i, (i < k)%nat -> poll_reports true (poll w i)) ->
        poll_reports false (poll w k) ->
        time_before w k < timeout_ ->
        fst (fst (wait_for_download fuel timeout_ c w))
        = Return (Some (PyBool true))
        /\ calls (snd (wait_for_download fuel timeout_ c w))
           = (calls w
              ++ repeat (request_payload "get_status" PyNone) (S k))%list).
Proof.
  intros Hfuel. split; [|split].
  - unfold wait_for_download, bind. cbn [time_time].
    apply wait_loop_total. lia.
  - intros Hall. rewrite wait_for_download_unfold.
    destruct (wait_loop_all_success timeout_ w Hall fuel 0%nat c)
      as (n & c' & Hn & Hrun & Hpast & Hbefore); [lia|lia|intros i Hi; lia|].
    exists n. rewrite Hrun. cbn [fst snd].
    repeat (split; [assumption || reflexivity|]).
    intros Hzero.
    pose proof (time_before_no_latency w _ Hzero) as Htb.
    rewrite Htb in Hpast by exact Hn.
    destruct n as [|n]; [lia|].
    specialize (Hbefore n (Nat.lt_succ_diag_r n)).
    rewrite Htb in Hbefore by lia. lia.
  - intros k Hbefore Hother Hk. rewrite wait_for_download_unfold.
    pose proof (time_before_ge w k) as Hge.
    destruct (wait_loop_first_other timeout_ w k Hbefore Hother Hk
                fuel 0%nat c) as (c' & Hrun); [lia|lia|].
    rewrite Hrun. cbn [fst snd]. split; [reflexivity|].
    unfold after_exchange, world_at. cbn [calls].
    rewrite <- app_assoc, <- repeat_cons. reflexivity.
Qed.

Lemma wait_for_download_polls_witness :
  fst (fst (@wait_for_download (env_always (status_is "success")) 4 3
              default_client w0))
  = Return (Some (PyBool false))
  /\ fst (fst (@wait_for_download env_second_poll_other 4 3 default_client w0))
     = Return (Some (PyBool true)).
Proof.
  split.
  - assert (Hfuel : (Z.to_nat 3 < 4)%nat) by (vm_compute; lia).
    assert (Hall : forall i, (i < Z.to_nat 3)%nat ->
              @poll_reports (env_always (status_is "success")) true
                (@poll (env_always (status_is "success")) w0 i)).
    { intros i _. exists [("status"%string, PyStr "success")].
      split; reflexivity. }
    destruct (proj1 (proj2 (@wait_for_download_polls
                              (env_always (status_is "success")) 4 3
                              default_client w0 Hfuel)) Hall)
      as (n & _ & Hr & _).
    exact Hr.
  - assert (Hfuel : (Z.to_nat 3 < 4)%nat) by (vm_compute; lia).
    assert (Hbefore : forall i, (i < 1)%nat ->
              @poll_reports env_second_poll_other true
                (@poll env_second_poll_other w0 i)).
    { intros [|i] Hi; [|lia]. exists [("status"%string, PyStr "success")].
      split; reflexivity. }
    assert (Hother : @poll_reports env_second_poll_other false
                       (@poll env_second_poll_other w0 1)).
    { exists [("status"%string, PyStr "idle")]. split; reflexivity. }
    assert (Hk : @time_before env_second_poll_other w0 1 < 3)
      by (vm_compute; reflexivity).
    exact (proj1 (proj2 (proj2 (@wait_for_download_polls env_second_poll_other
                                  4 3 default_client w0 Hfuel))
                    1%nat Hbefore Hother Hk)).
Defined.

(** ** C7: the round trip of the wire format *)

Module WireFacts.
Import Wire.

Lemma to_N_byte_of_N (n : N) : (n < 256)%N -> Byte.to_N (byte_of_N n) = n.
Proof.
  intros Hn. unfold byte_of_N.
  destruct (Byte.of_N n) as [b|] eqn:Hb.
  - apply Byte.to_of_N. exact Hb.
  - apply Byte.of_N_None_iff in Hb. lia.
Qed.

Lemma read_varint_go (fuel : nat) :
  forall (n : N) (rest : list byte),
    (n < 2 ^ N.of_nat fuel)%N ->
    read_varint (varint_go fuel n ++ rest) = Some (n, rest).
Proof.
  induction fuel as [|fuel IH]; intros n rest Hn.
  - cbn [varint_go]. change (2 ^ N.of_nat 0)%N with 1%N in Hn.
    destruct (N.ltb_spec n 128) as [Hlt|Hge]; [|lia].
    cbn [app read_varint]. rewrite to_N_byte_of_N by lia.
    destruct (N.ltb_spec n 128); [reflexivity|lia].
  - cbn [varint_go].
    destruct (N.ltb_spec n 128) as [Hlt|Hge].
    + cbn [app read_varint]. rewrite to_N_byte_of_N by lia.
      destruct (N.ltb_spec n 128); [reflexivity|lia].
    + cbn [app read_varint].
      assert (Hmod : (n mod 128 < 128)%N) by (apply N.mod_lt; discriminate).
      assert (Hdm : n = (128 * (n / 128) + n mod 128)%N)
        by (apply N.div_mod; discriminate).
      rewrite Nat2N.inj_succ, N.pow_succ_r' in Hn.
      generalize dependent (n mod 128)%N. intros r Hmod Hdm.
      generalize dependent (n / 128)%N. intros q Hdm.
      rewrite to_N_byte_of_N by lia.
      destruct (N.ltb_spec (128 + r) 128) as [Hlt|_]; [lia|].
      rewrite IH by lia.
      f_equal. f_equal. lia.
Qed.

Lemma read_varint_varint (n : N) (rest : list byte) :
  read_varint (varint n ++ rest) = Some (n, rest).
Proof.
  unfold varint. apply read_varint_go. rewrite N2Nat.id. apply N.size_gt.
Qed.

Lemma read_bytes_put_bytes (bs rest : list byte) :
  read_bytes (put_bytes bs ++ rest) = Some (bs, rest).
Proof.
  unfold read_bytes, put_bytes.
  rewrite <- app_assoc, read_varint_varint, Nat2N.id.
  destruct (Nat.leb_spec (List.length bs) (List.length (bs ++ rest)))
    as [_|Hlt]; [|rewrite length_app in Hlt; lia].
  rewrite firstn_app, Nat.sub_diag, firstn_all, firstn_O, app_nil_r.
  rewrite skipn_app, Nat.sub_diag, skipn_all, skipn_O. reflexivity.
Qed.

Lemma read_str_put_str (s : string) (rest : list byte) :
  read_str (put_str s ++ rest) = Some (s, rest).
Proof.
  unfold read_str, put_str.
  rewrite read_bytes_put_bytes, string_of_list_byte_of_string. reflexivity.
Qed.

Lemma read_many_flat_map {A} (enc : A -> list byte)
    (read : list byte -> option (A * list byte)) (items : list A) :
  (forall a, In a items -> forall rest, read (enc a ++ rest) = Some (a, rest)) ->
  forall rest,
    read_many read (List.length items) (flat_map enc items ++ rest)
    = Some (items, rest).
Proof.
  induction items as [|a items IH]; intros Hread rest; [reflexivity|].
  cbn [List.length flat_map read_many].
  rewrite <- app_assoc, (Hread a (or_introl eq_refl)).
  rewrite IH; [reflexivity|].
  intros a' Ha'. apply Hread. right. exact Ha'.
Qed.

(** *** Dictionaries rebuilt by assignment *)

Lemma no_dup_keys_app_fresh (xs ys : list string) (k : string) :
  no_dup_keys (xs ++ k :: ys) = true -> existsb (String.eqb k) xs = false.
Proof.
  induction xs as [|x xs IH]; intros Hnd; [reflexivity|].
  cbn [app no_dup_keys] in Hnd. apply andb_true_iff in Hnd as [Hx Hnd].
  apply negb_true_iff in Hx. rewrite existsb_app in Hx.
  apply orb_false_iff in Hx as [_ Hx]. cbn [existsb] in Hx.
  apply orb_false_iff in Hx as [Hx _].
  cbn [existsb]. rewrite String.eqb_sym, Hx. apply IH, Hnd.
Qed.

Lemma dict_set_fresh (d : list (string * pyval)) (k : string) (v : pyval) :
  existsb (String.eqb k) (map fst d) = false ->
  dict_set d k v = (d ++ [(k, v)])%list.
Proof.
  induction d as [|[k' v'] d IH]; intros Hfresh; [reflexivity|].
  cbn [map fst existsb] in Hfresh. apply orb_false_iff in Hfresh as [Hk Hd].
  cbn [dict_set app]. rewrite String.eqb_sym, Hk, IH by exact Hd. reflexivity.
Qed.

Lemma fold_dict_set (entries : list (string * pyval)) :
  forall acc : list (string * pyval),
    no_dup_keys (map fst (acc ++ entries)) = true ->
    fold_left (fun d kv => dict_set d (fst kv) (snd kv)) entries acc
    = (acc ++ entries)%list.
Proof.
  induction entries as [|[k v] entries IH]; intros acc Hnd.
  - rewrite app_nil_r. reflexivity.
  - cbn [fold_left fst snd].
    rewrite dict_set_fresh.
    + rewrite IH; rewrite <- app_assoc; [reflexivity|exact Hnd].
    + rewrite map_app in Hnd. cbn [map fst] in Hnd.
      apply (no_dup_keys_app_fresh _ _ _ Hnd).
Qed.

Lemma dict_of_entries_no_dup (entries : list (string * pyval)) :
  no_dup_keys (map fst entries) = true -> dict_of_entries entries = entries.
Proof. intros Hnd. apply (fold_dict_set entries [] Hnd). Qed.

(** *** Values *)

Lemma depth_pos (v : pyval) : (1 <= depth v)%nat.
Proof. destruct v; cbn [depth]; lia. Qed.

Lemma depth_item (items : list pyval) (v : pyval) :
  In v items ->
  (depth v <= fold_right (fun x acc => Nat.max (depth x) acc) O items)%nat.
Proof.
  induction items as [|x items IH]; intros Hin; [destruct Hin|].
  cbn [fold_right]. destruct Hin as [->|Hin]; [lia|].
  specialize (IH Hin). lia.
Qed.

Lemma depth_entry (entries : list (string * pyval)) (kv : string * pyval) :
  In kv entries ->
  (depth (snd kv)
   <= fold_right (fun kv acc => Nat.max (depth (snd kv)) acc) O entries)%nat.
Proof.
  induction entries as [|x entries IH]; intros Hin; [destruct Hin|].
  cbn [fold_right]. destruct Hin as [->|Hin]; [lia|].
  specialize (IH Hin). lia.
Qed.

Ltac decide_tags :=
  repeat match goal with
         | |- context [Byte.eqb ?a ?b] =>
             let r := eval vm_compute in (Byte.eqb a b) in
             change (Byte.eqb a b) with r
         end;
  cbv iota.

(** Reading back what [dumps_val] wrote, whatever follows it. *)
Lemma loads_val_dumps_val (fuel : nat) :
  forall (v : pyval) (rest : list byte),
    (depth v <= fuel)%nat -> wf_val v = true ->
    loads_val fuel (dumps_val v ++ rest) = Some (v, rest).
Proof.
  induction fuel as [|fuel IH]; intros v rest Hdepth Hwf.
  { pose proof (depth_pos v). lia. }
  destruct v as [|b|n|s|items|entries]; cbn [dumps_val app loads_val].
  - decide_tags. reflexivity.
  - destruct b; decide_tags; reflexivity.
  - destruct (Z.ltb_spec n 0) as [Hneg|Hpos]; cbn [app]; decide_tags;
      rewrite read_varint_varint, Z2N.id by lia;
      rewrite ?Z.opp_involutive; reflexivity.
  - decide_tags. rewrite read_str_put_str. reflexivity.
  - decide_tags. rewrite <- app_assoc, read_varint_varint, Nat2N.id.
    rewrite read_many_flat_map; [reflexivity|].
    intros a Ha rest'. apply IH.
    + cbn [depth] in Hdepth. pose proof (depth_item items a Ha). lia.
    + cbn [wf_val] in Hwf. rewrite forallb_forall in Hwf. apply Hwf, Ha.
  - decide_tags. rewrite <- app_assoc, read_varint_varint, Nat2N.id.
    cbn [wf_val] in Hwf. apply andb_true_iff in Hwf as [Hnd Hwf].
    rewrite read_many_flat_map.
    + rewrite dict_of_entries_no_dup by exact Hnd. reflexivity.
    + intros kv Hkv rest'. unfold read_entry.
      rewrite <- app_assoc, read_str_put_str, IH.
      * destruct kv; reflexivity.
      * cbn [depth] in Hdepth. pose proof (depth_entry entries kv Hkv). lia.
      * rewrite forallb_forall in Hwf. apply Hwf, Hkv.
Qed.

Lemma length_flat_map_ge {A} (enc : A -> list byte) (f : A -> nat)
    (items : list A) :
  (forall a, In a items -> (f a <= List.length (enc a))%nat) ->
  (fold_right (fun x acc => Nat.max (f x) acc) O items
   <= List.length (flat_map enc items))%nat.
Proof.
  induction items as [|a items IH]; intros Hle; [cbn; lia|].
  cbn [fold_right flat_map]. rewrite length_app.
  pose proof (Hle a (or_introl eq_refl)).
  assert ((fold_right (fun x acc => Nat.max (f x) acc) O items
           <= List.length (flat_map enc items))%nat).
  { apply IH. intros a' Ha'. apply Hle. right. exact Ha'. }
  lia.
Qed.

(** A value is no deeper than its serialization is long. *)
Lemma depth_le_length (bound : nat) :
  forall v : pyval,
    (depth v <= bound)%nat -> (depth v <= List.length (dumps_val v))%nat.
Proof.
  induction bound as [|bound IH]; intros v Hb.
  { pose proof (depth_pos v). lia. }
  destruct v as [|b|n|s|items|entries]; cbn [depth dumps_val List.length];
    try lia.
  - destruct (n <? 0); cbn [List.length]; lia.
  - rewrite length_app. apply le_n_S.
    etransitivity; [|apply Nat.le_add_l].
    apply (length_flat_map_ge dumps_val depth).
    intros a Ha. apply IH. cbn [depth] in Hb.
    pose proof (depth_item items a Ha). lia.
  - rewrite length_app. apply le_n_S.
    etransitivity; [|apply Nat.le_add_l].
    apply (length_flat_map_ge
             (fun kv => put_str (fst kv) ++ dumps_val (snd kv))%list
             (fun kv => depth (snd kv))).
    intros kv Hkv. rewrite length_app.
    etransitivity; [|apply Nat.le_add_l].
    apply IH. cbn [depth] in Hb.
    pose proof (depth_entry entries kv Hkv). lia.
Qed.

(** Every well-formed value survives serialization and deserialization. *)
Lemma loads_dumps (v : pyval) :
  wf_val v = true -> loads (dumps v) = inr v.
Proof.
  intros Hwf. unfold loads, dumps, header. cbn [app].
  change (Byte.eqb x80 x80 && Byte.eqb x04 x04) with true. cbv iota.
  rewrite loads_val_dumps_val.
  - change (Byte.eqb stop stop) with true. reflexivity.
  - rewrite length_app. cbn [List.length].
    pose proof (depth_le_length (depth v) v (Nat.le_refl _)). lia.
  - exact Hwf.
Qed.

End WireFacts.

(** C7: for every command and every params mapping (a dictionary, each of
    its keys held once at every depth), the payload that [_send_command]
    hands to the socket deserializes to the request envelope
    [{command: command, params: params}] itself. *)
Theorem request_round_trip (p : list (list byte) -> exchange)
    (command : string) (entries : list (string * pyval))
    (c : client) (w : world) :
  wf_val (PyDict entries) = true ->
  exists payload : list byte,
    calls (snd (@_send_command (wire_env p) command (PyDict entries) c w))
    = (calls w ++ [payload])%list
    /\ payload
       = Wire.dumps (PyDict [("command"%string, PyStr command);
                             ("params"%string, PyDict entries)])
    /\ Wire.loads payload
       = inr (PyDict [("command"%string, PyStr command);
                      ("params"%string, PyDict entries)]).
Proof.
  intros Hwf. eexists. split; [apply send_command_calls|].
  split; [reflexivity|].
  apply WireFacts.loads_dumps.
  change (wf_val (PyDict entries) && true = true).
  rewrite Hwf. reflexivity.
Qed.

Lemma request_round_trip_witness :
  exists payload : list byte,
    calls (snd (@_send_command (wire_env (scripted [])) "set_volume"
                  (PyDict [("volume"%string, PyInt 80)]) default_client w0))
    = (calls w0 ++ [payload])%list
    /\ payload
       = Wire.dumps (PyDict [("command"%string, PyStr "set_volume");
                             ("params"%string,
                              PyDict [("volume"%string, PyInt 80)])])
    /\ Wire.loads payload
       = inr (PyDict [("command"%string, PyStr "set_volume");
                      ("params"%string,
                       PyDict [("volume"%string, PyInt 80)])]).
Proof.
  apply (request_round_trip (scripted []) "set_volume"
           [("volume"%string, PyInt 80)] default_client w0).
  reflexivity.
Defined.

(** * Further properties of the code *)

(** ** The receive loop *)

Lemma recv_loop_chunks (chunks : list (list byte))
    (tail : list (exn + list byte)) (data : list byte) :
  Forall (fun chunk => chunk <> []) chunks ->
  tail = [] \/ (exists rest, tail = inr [] :: rest) ->
  recv_loop (map inr chunks ++ tail) data
  = inr (data ++ List.concat chunks)%list.
Proof.
  intros Hne Htail. revert data.
  induction Hne as [|chunk chunks Hchunk _ IH]; intros data.
  - cbn [map app List.concat]. rewrite app_nil_r.
    destruct Htail as [->|[rest ->]]; reflexivity.
  - cbn [map app List.concat recv_loop].
    destruct chunk as [|b chunk]; [contradiction|].
    rewrite IH, <- app_assoc. reflexivity.
Qed.

(** X1: the receive loop returns the bytes it had, followed by all
    chunks received up to the first empty chunk (or the end of the
    stream), in order; how the peer cut its bytes into chunks makes no
    difference, and nothing after the empty chunk is read. *)
Theorem recv_loop_concat (chunks : list (list byte))
    (tail : list (exn + list byte)) (data : list byte) :
  Forall (fun chunk => chunk <> []) chunks ->
  tail = [] \/ (exists rest, tail = inr [] :: rest) ->
  recv_loop (map inr chunks ++ tail) data
  = inr (data ++ List.concat chunks)%list.
Proof. apply recv_loop_chunks. Qed.

Lemma recv_loop_concat_witness :
  recv_loop (map inr [[x01; x02]; [x03]] ++ inr [] :: [inr [x04]]) [x00]
  = inr ([x00] ++ List.concat [[x01; x02]; [x03]])%list.
Proof.
  apply recv_loop_concat.
  - repeat constructor; discriminate.
  - right. exists [inr [x04]]. reflexivity.
Defined.

(** X2: when a [recv] raises after some chunks were received, the loop
    raises that exception: the bytes received so far are dropped. *)
Theorem recv_loop_raises (chunks : list (list byte)) (e : exn)
    (tail : list (exn + list byte)) (data : list byte) :
  Forall (fun chunk => chunk <> []) chunks ->
  recv_loop (map inr chunks ++ inl e :: tail) data = inl e.
Proof.
  intros Hne. revert data.
  induction Hne as [|chunk chunks Hchunk _ IH]; intros data; [reflexivity|].
  cbn [map app recv_loop].
  destruct chunk as [|b chunk]; [contradiction|]. apply IH.
Qed.

Lemma recv_loop_raises_witness :
  recv_loop (map inr [[x80]] ++ inl (mk_exn socket_timeout "timed out")
               :: [inr []]) []
  = inl (mk_exn socket_timeout "timed out").
Proof. apply recv_loop_raises. repeat constructor; discriminate. Defined.

(** X3: when the connection and the send succeed and the peer writes
    its bytes in any number of chunks before closing, [_send_command]
    deserializes the concatenation of the chunks: it returns the response
    and sets the flag, or, if the bytes do not deserialize, raises the
    translated exception and clears the flag; one call is made either
    way. *)
Theorem send_command_reads_to_end `{Environment}
    (command : string) (params : pyval) (c : client) (w : world)
    (chunks : list (list byte)) (tail : list (exn + list byte)) :
  on_connect (next_exchange w (request_payload command params)) = None ->
  on_send (next_exchange w (request_payload command params)) = None ->
  on_recv (next_exchange w (request_payload command params))
  = (map inr chunks ++ tail)%list ->
  Forall (fun chunk => chunk <> []) chunks ->
  tail = [] \/ (exists rest, tail = inr [] :: rest) ->
  _send_command command params c w
  = match pickle_loads (List.concat chunks) with
    | inr response =>
        (Return response, with_connected true c,
         after_exchange w (request_payload command params))
    | inl e =>
        (Raise (translated c e), with_connected false c,
         after_exchange w (request_payload command params))
    end.
Proof.
  intros Hconnect Hsend Hrecv Hne Htail.
  rewrite send_command_outcome. cbv zeta. unfold outcome.
  rewrite Hconnect, Hsend, Hrecv, (recv_loop_chunks _ _ _ Hne Htail).
  cbn [app]. destruct (pickle_loads (List.concat chunks)); reflexivity.
Qed.

Lemma send_command_reads_to_end_witness :
  @_send_command
    (wire_env (fun _ => reply_in_chunks (status_playing true) 5))
    "get_status" PyNone default_client w0
  = match
      Wire.loads (List.concat [firstn 5 (Wire.dumps (status_playing true));
                          skipn 5 (Wire.dumps (status_playing true))])
    with
    | inr response =>
        (Return response, with_connected true default_client,
         @after_exchange
           (wire_env (fun _ => reply_in_chunks (status_playing true) 5)) w0
           (Wire.dumps (build_request "get_status" (PyDict []))))
    | inl e =>
        (Raise (translated default_client e),
         with_connected false default_client,
         @after_exchange
           (wire_env (fun _ => reply_in_chunks (status_playing true) 5)) w0
           (Wire.dumps (build_request "get_status" (PyDict []))))
    end.
Proof.
  apply (@send_command_reads_to_end
           (wire_env (fun _ => reply_in_chunks (status_playing true) 5))
           "get_status" PyNone default_client w0
           [firstn 5 (Wire.dumps (status_playing true));
            skipn 5 (Wire.dumps (status_playing true))]
           [inr []; inr [x00]] eq_refl eq_refl eq_refl).
  - repeat constructor; vm_compute; discriminate.
  - right. exists [inr [x00]]. reflexivity.
Defined.

(** ** What holds of every operation *)

Section BuiltFacts.
Context {env : Environment}.

Lemma built_py_get (locals : list exn_class) (v : pyval) (key : string)
    (default : pyval) :
  In AttributeError locals -> built locals pyval (py_get v key default).
Proof.
  intros Hin. destruct v; first [apply built_ret | apply built_raise, Hin].
Qed.

Lemma built_some (locals : list exn_class) (A : Type) (m : M A) :
  built locals A m -> built locals (option A) (some m).
Proof.
  intros Hm. apply built_bind; [exact Hm|]. intros a. apply built_ret.
Qed.

Lemma built_wait_loop (fuel : nat) (start_time timeout_ : Z) :
  built [AttributeError] (option pyval) (wait_loop fuel start_time timeout_).
Proof.
  induction fuel as [|fuel IH]; cbn [wait_loop].
  - apply built_ret.
  - apply built_bind; [apply built_time_time|]. intros t.
    destruct (t - start_time <? timeout_); [|apply built_ret].
    apply built_bind; [apply built_send_command|]. intros status.
    apply built_bind; [apply built_py_get; left; reflexivity|]. intros s.
    destruct (py_eq_str s "success"); [|apply built_ret].
    apply built_bind; [apply built_time_sleep|]. intros _. apply IH.
Qed.

Lemma built_run (fuel : nat) (op : operation) :
  built (local_errors op) (option pyval) (run fuel op).
Proof.
  destruct op; cbn [run local_errors];
    try (apply built_some; apply built_send_command).
  - apply built_some. unfold set_volume.
    destruct (negb _);
      [apply built_raise; left; reflexivity | apply built_send_command].
  - apply built_some. unfold play_url.
    apply built_bind; [apply built_send_command|]. intros result.
    apply built_bind; [apply built_py_get; left; reflexivity|]. intros s.
    destruct (py_eq_str s "success"); [|apply built_ret].
    apply built_bind; [apply built_time_sleep|]. intros _.
    apply built_bind; [apply built_send_command|]. intros status.
    apply built_bind; [apply built_py_get; left; reflexivity|]. intros s'.
    destruct (py_eq_str s' "success"); [|apply built_ret].
    apply built_bind; [apply built_py_get; left; reflexivity|]. intros data.
    apply built_bind; [apply built_py_get; left; reflexivity|].
    intros playing.
    destruct (negb _); [apply built_send_command | apply built_ret].
  - apply built_some. unfold get_current_track_info.
    apply built_bind; [apply built_send_command|]. intros status.
    apply built_bind; [apply built_py_get; left; reflexivity|]. intros s.
    destruct (py_eq_str s "success");
      [apply built_py_get; left; reflexivity | apply built_ret].
  - unfold wait_for_download.
    apply built_bind; [apply built_time_time|]. intros t.
    apply built_wait_loop.
Qed.

(** A method only ever assigns the flag. *)
Lemma built_only_sets_flag (locals : list exn_class) (A : Type) (m : M A) :
  built locals A m ->
  forall (c : client) (w : world),
    exists b : bool, snd (fst (m c w)) = with_connected b c.
Proof.
  induction 1 as [A a|A e Hin| |n|command params|A B m k _ IHm _ IHk];
    intros c w.
  - exists (connected c). destruct c; reflexivity.
  - exists (connected c). destruct c; reflexivity.
  - exists (connected c). destruct c; reflexivity.
  - exists (connected c). destruct c; reflexivity.
  - rewrite send_command_outcome. cbv zeta.
    destruct (outcome _) as [[st e]|response];
      [exists false | exists true]; reflexivity.
  - unfold bind. destruct (IHm c w) as [b1 Hb1].
    destruct (m c w) as [[[a|e] c1] w1]; cbn [fst snd] in *.
    + destruct (IHk a c1 w1) as [b2 Hb2]. exists b2.
      rewrite Hb2, Hb1. reflexivity.
    + exists b1. exact Hb1.
Qed.

(** What a method raises is raised on the spot or by the transport. *)
Lemma built_raises (locals : list exn_class) (A : Type) (m : M A) :
  built locals A m ->
  forall (c : client) (w : world) (e : exn),
    fst (fst (m c w)) = Raise e ->
    In (exn_cls e) (ConnectionError :: RuntimeError :: locals).
Proof.
  induction 1 as [A a|A e' Hin| |n|command params|A B m k _ IHm _ IHk];
    intros c w e Hraise; try discriminate Hraise.
  - injection Hraise as <-. right; right. exact Hin.
  - rewrite send_command_outcome in Hraise. cbv zeta in Hraise.
    destruct (outcome _) as [[st e']|response]; [|discriminate Hraise].
    injection Hraise as <-. unfold translated.
    destruct (isinstance e' _); [left|right; left]; reflexivity.
  - unfold bind in Hraise. specialize (IHm c w).
    destruct (m c w) as [[[a|e'] c1] w1]; cbn [fst snd] in *.
    + apply (IHk a c1 w1 e Hraise).
    + injection Hraise as <-. apply IHm. reflexivity.
Qed.

(** With the peer down, a method stops at its first call. *)
Lemma built_fails_fast (locals : list exn_class) (A : Type) (m : M A) :
  built locals A m ->
  forall (c : client) (w : world),
    peer_down w ->
    (calls (snd (m c w)) = calls w /\ snd (fst (m c w)) = c)
    \/ (exists (p : list byte) (st : stage) (e : exn),
          outcome (next_exchange w p) = inl (st, e)
          /\ calls (snd (m c w)) = (calls w ++ [p])%list
          /\ fst (fst (m c w)) = Raise (translated c e)
          /\ snd (fst (m c w)) = with_connected false c).
Proof.
  induction 1 as [A a|A e' Hin| |n|command params|A B m k _ IHm _ IHk];
    intros c w Hdown; try (left; split; reflexivity).
  - right. destruct (Hdown (request_payload command params)) as (st & e & Hout).
    exists (request_payload command params), st, e.
    rewrite send_command_outcome. cbv zeta. rewrite Hout.
    repeat split; reflexivity.
  - unfold bind. specialize (IHm c w Hdown).
    destruct (m c w) as [[[a|e'] c1] w1]; cbn [fst snd] in *.
    + destruct IHm as [[Hcalls ->]|(p & st & e & _ & _ & Habs & _)];
        [|discriminate Habs].
      assert (Hdown1 : peer_down w1).
      { intros p. unfold next_exchange. rewrite Hcalls. apply Hdown. }
      destruct (IHk a c w1 Hdown1) as [[Hc2 Hk2]|(p & st & e & Hout & Hk2)].
      * left. rewrite Hc2. split; assumption.
      * right. exists p, st, e. unfold next_exchange in *.
        rewrite Hcalls in *. split; assumption.
    + destruct IHm as [IHm|(p & st & e & Hout & Hc & Hr & Hf)];
        [left; exact IHm|].
      right. exists p, st, e. injection Hr as ->. repeat split; assumption.
Qed.

End BuiltFacts.

(** X4: no operation changes the host, the port or the timeout of the
    client: the flag is the only field that is ever assigned. *)
Theorem operations_keep_configuration `{Environment}
    (fuel : nat) (op : operation) (c : client) (w : world) :
  host (snd (fst (run fuel op c w))) = host c
  /\ port (snd (fst (run fuel op c w))) = port c
  /\ timeout (snd (fst (run fuel op c w))) = timeout c.
Proof.
  destruct (built_only_sets_flag _ _ _ (built_run fuel op) c w) as [b ->].
  repeat split.
Qed.

(** X5: whatever the peer does, an operation raises only
    [ConnectionError] or [RuntimeError], the two exceptions of the
    transport, except that [set_volume] may raise [ValueError] and
    [play_url], [get_current_track_info] and [wait_for_download] may raise
    [AttributeError]. *)
Theorem operations_raise_only `{Environment}
    (fuel : nat) (op : operation) (c : client) (w : world) (e : exn) :
  fst (fst (run fuel op c w)) = Raise e ->
  exn_cls e = ConnectionError \/ exn_cls e = RuntimeError
  \/ (exn_cls e = ValueError /\ exists volume, op = SetVolume volume)
  \/ (exn_cls e = AttributeError
      /\ ((exists url, op = PlayUrl url) \/ op = GetCurrentTrackInfo
          \/ exists timeout_, op = WaitForDownload timeout_)).
Proof.
  intros Hraise.
  pose proof (built_raises _ _ _ (built_run fuel op) c w e Hraise) as Hin.
  destruct Hin as [Hc|[Hc|Hin]]; [left; congruence|right; left; congruence|].
  right; right.
  destruct op; cbn [local_errors] in Hin;
    try contradiction; destruct Hin as [Hcls|[]]; symmetry in Hcls.
  - left. split; [exact Hcls|]. eexists. reflexivity.
  - right. split; [exact Hcls|]. left. eexists. reflexivity.
  - right. split; [exact Hcls|]. right. left. reflexivity.
  - right. split; [exact Hcls|]. right. right. eexists. reflexivity.
Qed.

Lemma operations_raise_only_witness :
  exn_cls (mk_exn ValueError "Volume must be between 0 and 100")
  = ConnectionError
  \/ exn_cls (mk_exn ValueError "Volume must be between 0 and 100")
     = RuntimeError
  \/ (exn_cls (mk_exn ValueError "Volume must be between 0 and 100")
      = ValueError
      /\ exists volume, SetVolume 101 = SetVolume volume)
  \/ (exn_cls (mk_exn ValueError "Volume must be between 0 and 100")
      = AttributeError
      /\ ((exists url, SetVolume 101 = PlayUrl url)
          \/ SetVolume 101 = GetCurrentTrackInfo
          \/ exists timeout_, SetVolume 101 = WaitForDownload timeout_)).
Proof.
  apply (@operations_raise_only env_unreachable 1 (SetVolume 101)
           default_client w0).
  reflexivity.
Defined.

(** X6: no retry and no second call after a failure.  If no connection
    made from the current world comes to a response, every operation
    either makes no network call and leaves the client as it was, or makes
    exactly one call, raises the transport's translation of that call's
    exception, and leaves the flag false; composite operations stop at
    their first call. *)
Theorem operations_fail_fast `{Environment}
    (fuel : nat) (op : operation) (c : client) (w : world) :
  peer_down w ->
  (calls (snd (run fuel op c w)) = calls w /\ snd (fst (run fuel op c w)) = c)
  \/ (exists (p : list byte) (st : stage) (e : exn),
        outcome (next_exchange w p) = inl (st, e)
        /\ calls (snd (run fuel op c w)) = (calls w ++ [p])%list
        /\ fst (fst (run fuel op c w)) = Raise (translated c e)
        /\ snd (fst (run fuel op c w)) = with_connected false c).
Proof. apply (built_fails_fast _ _ _ (built_run fuel op)). Qed.

Lemma operations_fail_fast_witness :
  (calls (snd (@run env_unreachable 1 (PlayUrl (PyStr "u")) default_client w0))
   = calls w0
   /\ snd (fst (@run env_unreachable 1 (PlayUrl (PyStr "u"))
                  default_client w0))
      = default_client)
  \/ (exists (p : list byte) (st : stage) (e : exn),
        @outcome env_unreachable (@next_exchange env_unreachable w0 p)
        = inl (st, e)
        /\ calls (snd (@run env_unreachable 1 (PlayUrl (PyStr "u"))
                         default_client w0))
           = (calls w0 ++ [p])%list
        /\ fst (fst (@run env_unreachable 1 (PlayUrl (PyStr "u"))
                       default_client w0))
           = Raise (translated default_client e)
        /\ snd (fst (@run env_unreachable 1 (PlayUrl (PyStr "u"))
                       default_client w0))
           = with_connected false default_client).
Proof.
  apply (@operations_fail_fast env_unreachable 1 (PlayUrl (PyStr "u"))
           default_client w0).
  intros payload. exists Connect. eexists. reflexivity.
Defined.

(** ** The single-call methods *)

(** X7: each method that wraps one command makes exactly one network
    call, whatever its outcome, and the payload is the request for the
    command below with the params below; the methods without arguments
    send the empty mapping as params, and [add_to_queue] sends the same
    request as [download]. *)
Theorem single_call_methods `{Environment} (c : client) (w : world)
    (url position files mode : pyval) :
  let sent (m : M pyval) (command : string) (params : pyval) :=
    calls (snd (m c w))
    = (calls w ++ [pickle_dumps (build_request command params)])%list in
  sent play "play"%string (PyDict [])
  /\ sent pause "pause"%string (PyDict [])
  /\ sent stop "stop"%string (PyDict [])
  /\ sent next_track "next"%string (PyDict [])
  /\ sent previous_track "prev"%string (PyDict [])
  /\ sent toggle_loop "toggle_loop"%string (PyDict [])
  /\ sent get_status "get_status"%string (PyDict [])
  /\ sent get_playlist "get_playlist"%string (PyDict [])
  /\ sent (download url) "download"%string (PyDict [("url"%string, url)])
  /\ sent (add_to_queue url) "download"%string (PyDict [("url"%string, url)])
  /\ sent (set_position position) "set_position"%string
       (PyDict [("position"%string, position)])
  /\ sent (convert_files files mode) "convert_files"%string
       (PyDict [("files"%string, files); ("mode"%string, mode)]).
Proof.
  cbv zeta. repeat split; apply send_command_calls.
Qed.

(** ** More on [play_url] and [get_current_track_info] *)

Section Composite.
Context {env : Environment}.

Lemma bind_send_command {B} (command : string) (params : pyval)
    (k : pyval -> M B) (c : client) (w : world) :
  bind (_send_command command params) k c w
  = match outcome (next_exchange w (request_payload command params)) with
    | inr response =>
        k response (with_connected true c)
          (after_exchange w (request_payload command params))
    | inl (_, e) =>
        (Raise (translated c e), with_connected false c,
         after_exchange w (request_payload command params))
    end.
Proof.
  unfold bind. rewrite send_command_outcome. cbv zeta.
  destruct (outcome _) as [[st e]|response]; reflexivity.
Qed.

Lemma py_get_not_mapping {B} (v : pyval) (key : string) (default : pyval)
    (k : pyval -> M B) (c : client) (w : world) :
  (forall d, v <> PyDict d) ->
  bind (py_get v key default) k c w
  = (Raise (mk_exn AttributeError "object has no attribute 'get'"), c, w).
Proof.
  intros Hv. destruct v; try reflexivity. exfalso. apply (Hv entries).
  reflexivity.
Qed.

End Composite.

(** X8: whatever the peer answers, [play_url] makes one, two or three
    network calls, and they are, in this order, the download, the status
    query and [play]: it never plays without having asked for the status,
    and never asks for the status without having downloaded. *)
Theorem play_url_call_sequence `{Environment}
    (url : pyval) (c : client) (w : world) :
  exists k : nat,
    (1 <= k <= 3)%nat
    /\ calls (snd (play_url url c w))
       = (calls w
          ++ firstn k
               [request_payload "download" (PyDict [("url"%string, url)]);
                request_payload "get_status" PyNone;
                request_payload "play" PyNone])%list.
Proof.
  unfold play_url, download. rewrite bind_send_command.
  destruct (outcome _) as [[st e]|result];
    [exists 1%nat; split; [lia|reflexivity]|].
  destruct result as [| | | | |d1];
    try (exists 1%nat; split; [lia|reflexivity]).
  rewrite py_get_dict.
  destruct (py_eq_str _ "success");
    [|exists 1%nat; split; [lia|reflexivity]].
  unfold bind at 1. cbn [time_sleep]. unfold get_status.
  rewrite bind_send_command.
  destruct (outcome _) as [[st e]|status];
    [exists 2%nat; split; [lia|]; cbn; rewrite <- app_assoc; reflexivity|].
  destruct status as [| | | | |d2];
    try (exists 2%nat; split; [lia|]; cbn; rewrite <- app_assoc; reflexivity).
  rewrite py_get_dict.
  destruct (py_eq_str _ "success");
    [|exists 2%nat; split; [lia|]; cbn; rewrite <- app_assoc; reflexivity].
  rewrite py_get_dict.
  destruct (match dict_lookup d2 "data" with
            | Some x => x
            | None => PyDict []
            end) as [| | | | |data];
    try (exists 2%nat; split; [lia|]; cbn; rewrite <- app_assoc; reflexivity).
  rewrite py_get_dict.
  destruct (negb _).
  - exists 3%nat. split; [lia|]. unfold play. rewrite send_command_calls.
    cbn. rewrite <- !app_assoc. reflexivity.
  - exists 2%nat. split; [lia|]. cbn. rewrite <- app_assoc. reflexivity.
Qed.

(** X9: a response that is not a mapping makes the convenience methods
    raise [AttributeError]: [get_current_track_info] does not return
    [None] then, and [play_url] does not return the download result; the
    exception is not one of the transport, no further call is made, and
    the flag stays as that call left it. *)
Theorem not_mapping_raises `{Environment}
    (url : pyval) (c : client) (w : world)
    (response : pyval) (c' : client) (w' : world) :
  (forall d, response <> PyDict d) ->
  (get_status c w = (Return response, c', w') ->
   get_current_track_info c w
   = (Raise (mk_exn AttributeError "object has no attribute 'get'"), c', w'))
  /\ (download url c w = (Return response, c', w') ->
      play_url url c w
      = (Raise (mk_exn AttributeError "object has no attribute 'get'"),
         c', w')).
Proof.
  intros Hv. split; intros Hrun.
  - unfold get_current_track_info.
    rewrite (bind_run _ _ _ _ _ _ _ Hrun).
    apply py_get_not_mapping, Hv.
  - unfold play_url.
    rewrite (bind_run _ _ _ _ _ _ _ Hrun).
    apply py_get_not_mapping, Hv.
Qed.

Lemma not_mapping_raises_witness :
  @get_current_track_info (env_always (PyList [])) default_client w0
  = (Raise (mk_exn AttributeError "object has no attribute 'get'"),
     with_connected true default_client,
     snd (@get_status (env_always (PyList [])) default_client w0))
  /\ @play_url (env_always PyNone) (PyStr "u") default_client w0
     = (Raise (mk_exn AttributeError "object has no attribute 'get'"),
        with_connected true default_client,
        snd (@download (env_always PyNone) (PyStr "u") default_client w0)).
Proof.
  split.
  - apply (proj1 (@not_mapping_raises (env_always (PyList [])) PyNone
                    default_client w0 (PyList []) _ _
                    ltac:(intros d Hd; discriminate Hd))).
    reflexivity.
  - apply (proj2 (@not_mapping_raises (env_always PyNone) (PyStr "u")
                    default_client w0 PyNone _ _
                    ltac:(intros d Hd; discriminate Hd))).
    reflexivity.
Defined.

(** X10: when download and status query both report success but the
    [data] of the status is present and is not a mapping, [play_url]
    raises [AttributeError] after the status query: it neither plays nor
    returns the download result. *)
Theorem play_url_data_not_mapping `{Environment}
    (url : pyval) (c : client) (w : world)
    (d1 : list (string * pyval)) (c1 : client) (w1 : world)
    (d2 : list (string * pyval)) (c2 : client) (w2 : world) :
  download url c w = (Return (PyDict d1), c1, w1) ->
  reports_success d1 = true ->
  get_status c1 (slept 1 w1) = (Return (PyDict d2), c2, w2) ->
  reports_success d2 = true ->
  is_playing_field d2 = None ->
  play_url url c w
  = (Raise (mk_exn AttributeError "object has no attribute 'get'"), c2, w2).
Proof.
  intros Hd Hs1 Hst Hs2 Hp.
  rewrite (play_url_unfold _ _ _ _ _ _ Hd), Hs1, Hst, py_get_dict,
    status_test, Hs2, py_get_dict.
  unfold is_playing_field in Hp.
  destruct (dict_lookup d2 "data") as [[| | | | |data]|];
    try discriminate Hp; reflexivity.
Qed.

Lemma play_url_data_not_mapping_witness :
  @play_url
    (wire_env (scripted [reply (status_is "success");
                         reply (PyDict [("status"%string, PyStr "success");
                                        ("data"%string, PyNone)])]))
    (PyStr "u") default_client w0
  = (Raise (mk_exn AttributeError "object has no attribute 'get'"),
     with_connected true default_client,
     snd (@get_status
            (wire_env (scripted [reply (status_is "success");
                                 reply (PyDict [("status"%string,
                                                 PyStr "success");
                                                ("data"%string, PyNone)])]))
            (with_connected true default_client)
            (slept 1
               (snd (@download
                       (wire_env
                          (scripted [reply (status_is "success");
                                     reply (PyDict [("status"%string,
                                                     PyStr "success");
                                                    ("data"%string,
                                                     PyNone)])]))
                       (PyStr "u") default_client w0))))).
Proof.
  apply (@play_url_data_not_mapping
           (wire_env (scripted [reply (status_is "success");
                                reply (PyDict [("status"%string,
                                                PyStr "success");
                                               ("data"%string, PyNone)])]))
           (PyStr "u") default_client w0
           [("status"%string, PyStr "success")] _ _
           [("status"%string, PyStr "success"); ("data"%string, PyNone)]
           _ _ eq_refl eq_refl eq_refl eq_refl eq_refl).
Defined.

(** ** More on [wait_for_download] *)

Section WaitMore.
Context {env : Environment}.

Lemma calls_after_poll (w : world) (j : nat) :
  calls (after_exchange (world_at w j) (request_payload "get_status" PyNone))
  = (calls w ++ repeat (request_payload "get_status" PyNone) (S j))%list.
Proof.
  unfold after_exchange, world_at. cbn [calls].
  rewrite <- app_assoc, <- repeat_cons. reflexivity.
Qed.

Lemma wait_loop_calls_bound (timeout_ : Z) (w : world) :
  forall (fuel j : nat) (c : client),
    (j <= Z.to_nat timeout_)%nat ->
    exists n : nat,
      (n <= Z.to_nat timeout_)%nat
      /\ calls (snd (wait_loop fuel (now w) timeout_ c (world_at w j)))
         = (calls w ++ repeat (request_payload "get_status" PyNone) n)%list.
Proof.
  induction fuel as [|fuel IH]; intros j c Hj.
  { exists j. split; [exact Hj|reflexivity]. }
  rewrite wait_loop_turn.
  destruct (Z.ltb_spec (time_before w j) timeout_) as [Hlt|Hge];
    [|exists j; split; [exact Hj|reflexivity]].
  pose proof (time_before_ge w j) as Hjt.
  assert (Hsj : (S j <= Z.to_nat timeout_)%nat) by lia.
  destruct (outcome (poll w j)) as [[st e]|response].
  { exists (S j). split; [exact Hsj|apply calls_after_poll]. }
  destruct response as [| | | | |d];
    try (exists (S j); split; [exact Hsj|apply calls_after_poll]).
  destruct (reports_success d).
  - apply IH, Hsj.
  - exists (S j). split; [exact Hsj|apply calls_after_poll].
Qed.

Lemma translated_with_connected (b : bool) (c : client) (e : exn) :
  translated (with_connected b c) e = translated c e.
Proof. reflexivity. Qed.

(** The loop gets to its [k]-th poll when the polls before it report
    success and the [k]-th falls before the deadline. *)
Lemma wait_loop_reaches (timeout_ : Z) (w : world) (k : nat) :
  (forall i, (i < k)%nat -> poll_reports true (poll w i)) ->
  time_before w k < timeout_ ->
  forall (d fuel j : nat) (c : client),
    (j + d = k)%nat ->
    exists b : bool,
      wait_loop (d + fuel) (now w) timeout_ c (world_at w j)
      = wait_loop fuel (now w) timeout_ (with_connected b c) (world_at w k)
      /\ (d = 0%nat -> b = connected c)
      /\ ((0 < d)%nat -> b = true).
Proof.
  intros Hbefore Hk. induction d as [|d IH]; intros fuel j c Hjk.
  - replace j with k by lia. exists (connected c).
    split; [destruct c; reflexivity|]. split; [reflexivity|lia].
  - cbn [Nat.add]. rewrite wait_loop_turn.
    pose proof (time_before_mono w j k ltac:(lia)) as Hmono.
    destruct (Z.ltb_spec (time_before w j) timeout_) as [_|Hge]; [|lia].
    destruct (Hbefore j ltac:(lia)) as (dj & Hout & Hs). rewrite Hout, Hs.
    destruct (IH fuel (S j) (with_connected true c) ltac:(lia))
      as (b & Hrun & Hb0 & Hb1).
    exists true. rewrite Hrun.
    split; [|split; [lia|reflexivity]].
    destruct d as [|d]; [rewrite (Hb0 eq_refl)|rewrite (Hb1 ltac:(lia))];
      reflexivity.
Qed.

End WaitMore.

(** X11: whatever the peer answers and whatever the fuel,
    [wait_for_download(timeout)] makes at most [timeout] network calls
    (none when [timeout <= 0]), and all of them are status queries. *)
Theorem wait_for_download_calls_bound `{Environment}
    (fuel : nat) (timeout_ : Z) (c : client) (w : world) :
  exists n : nat,
    (n <= Z.to_nat timeout_)%nat
    /\ calls (snd (wait_for_download fuel timeout_ c w))
       = (calls w ++ repeat (request_payload "get_status" PyNone) n)%list.
Proof.
  rewrite wait_for_download_unfold.
  apply wait_loop_calls_bound. lia.
Qed.

(** X12: with a timeout of zero or less, [wait_for_download] returns
    [False] at once: no status query is made and client, calls and clock
    are as before. *)
Theorem wait_for_download_no_time `{Environment}
    (fuel : nat) (timeout_ : Z) (c : client) (w : world) :
  timeout_ <= 0 ->
  wait_for_download (S fuel) timeout_ c w
  = (Return (Some (PyBool false)), c, w).
Proof.
  intros Ht. unfold wait_for_download, bind. cbn [time_time wait_loop].
  unfold bind. cbn [time_time].
  destruct (Z.ltb_spec (now w - now w) timeout_); [lia|reflexivity].
Qed.

Lemma wait_for_download_no_time_witness :
  @wait_for_download env_unreachable 1 0 default_client w0
  = (Return (Some (PyBool false)), default_client, w0).
Proof.
  apply (@wait_for_download_no_time env_unreachable 0 0 default_client w0).
  lia.
Defined.

(** X13: [wait_for_download] does not turn a failed poll into [True] or
    [False].  When the polls before the [k]-th report success and the
    [k]-th, begun before the deadline, fails in the transport, the
    transport's exception is raised and the flag is false; when it
    returns a response that is not a mapping, [AttributeError] is raised
    and the flag is true.  That poll is the last call made. *)
Theorem wait_for_download_raises `{Environment}
    (fuel : nat) (timeout_ : Z) (c : client) (w : world) (k : nat) :
  (k < fuel)%nat ->
  (forall i, (i < k)%nat -> poll_reports true (poll w i)) ->
  time_before w k < timeout_ ->
  (forall (st : stage) (e : exn),
     outcome (poll w k) = inl (st, e) ->
     wait_for_download fuel timeout_ c w
     = (Raise (translated c e), with_connected false c,
        after_exchange (world_at w k) (request_payload "get_status" PyNone)))
  /\ (forall response : pyval,
        outcome (poll w k) = inr response ->
        (forall d, response <> PyDict d) ->
        wait_for_download fuel timeout_ c w
        = (Raise (mk_exn AttributeError "object has no attribute 'get'"),
           with_connected true c,
           after_exchange (world_at w k)
             (request_payload "get_status" PyNone))).
Proof.
  intros Hfuel Hbefore Hk. rewrite wait_for_download_unfold.
  destruct (wait_loop_reaches timeout_ w k Hbefore Hk k (fuel - k) 0%nat c
              eq_refl) as (b & Hrun & _).
  replace (k + (fuel - k))%nat with fuel in Hrun by lia.
  rewrite Hrun.
  destruct (fuel - k)%nat as [|fuel'] eqn:Hf; [lia|].
  rewrite wait_loop_turn.
  destruct (Z.ltb_spec (time_before w k) timeout_) as [_|Hge]; [|lia].
  split.
  - intros st e Hout. rewrite Hout. reflexivity.
  - intros response Hout Hv. rewrite Hout.
    destruct response; try reflexivity. exfalso. apply (Hv entries).
    reflexivity.
Qed.

Lemma wait_for_download_raises_witness :
  @wait_for_download (wire_env (scripted [reply (status_is "success");
                                          reset_by_peer]))
    4 3 default_client w0
  = (Raise (translated default_client
              (mk_exn ConnectionResetError
                 "[Errno 104] Connection reset by peer")),
     with_connected false default_client,
     @after_exchange
       (wire_env (scripted [reply (status_is "success"); reset_by_peer]))
       (@world_at
          (wire_env (scripted [reply (status_is "success"); reset_by_peer]))
          w0 1)
       (@request_payload
          (wire_env (scripted [reply (status_is "success"); reset_by_peer]))
          "get_status" PyNone))
  /\ @wait_for_download (env_always (PyInt 7)) 4 3 default_client w0
     = (Raise (mk_exn AttributeError "object has no attribute 'get'"),
        with_connected true default_client,
        @after_exchange (env_always (PyInt 7))
          (@world_at (env_always (PyInt 7)) w0 0)
          (@request_payload (env_always (PyInt 7)) "get_status" PyNone)).
Proof.
  split.
  - assert (Hbefore : forall i, (i < 1)%nat ->
              @poll_reports
                (wire_env (scripted [reply (status_is "success");
                                     reset_by_peer]))
                true
                (@poll (wire_env (scripted [reply (status_is "success");
                                            reset_by_peer])) w0 i)).
    { intros [|i] Hi; [|lia]. exists [("status"%string, PyStr "success")].
      split; reflexivity. }
    apply (proj1 (@wait_for_download_raises
                    (wire_env (scripted [reply (status_is "success");
                                         reset_by_peer]))
                    4 3 default_client w0 1 ltac:(lia) Hbefore
                    ltac:(vm_compute; reflexivity)) Receive).
    reflexivity.
  - assert (Hbefore : forall i, (i < 0)%nat ->
              @poll_reports (env_always (PyInt 7)) true
                (@poll (env_always (PyInt 7)) w0 i)).
    { intros i Hi. lia. }
    apply (proj2 (@wait_for_download_raises (env_always (PyInt 7))
                    4 3 default_client w0 0 ltac:(lia) Hbefore
                    ltac:(vm_compute; reflexivity)) (PyInt 7)).
    + reflexivity.
    + intros d Hd. discriminate Hd.
Defined.

(** ** The example script *)

Section ExampleFacts.
Context {env : Environment}.

Lemma io_bind_print {B} (l : line) (k : unit -> IO B)
    (out : list line) (c : client) (w : world) :
  io_bind (print l) k out c w = k tt (out ++ [l])%list c w.
Proof. reflexivity. Qed.



Lemma io_bind_send_command {B} (command : string) (params : pyval)
    (k : pyval -> IO B) (out : list line) (c : client) (w : world) :
  io_bind (method (_send_command command params)) k out c w
  = match outcome (next_exchange w (request_payload command params)) with
    | inr response =>
        k response out (with_connected true c)
          (after_exchange w (request_payload command params))
    | inl (_, e) =>
        (Raise (translated c e), out, with_connected false c,
         after_exchange w (request_payload command params))
    end.
Proof.
  unfold io_bind, method. rewrite send_command_outcome. cbv zeta.
  destruct (outcome _) as [[st e]|response]; reflexivity.
Qed.

End ExampleFacts.







(** X15: when the first connection that [example_usage] makes fails
    with a timeout or a connection error, the script makes that one call
    only and prints three lines: the announcement of the test, the error
    naming [localhost:65432], and the advice to start the player. *)
Theorem example_usage_peer_unreachable `{Environment}
    (out : list line) (w : world) (st : stage) (e : exn) :
  outcome (next_exchange w (request_payload "get_status" PyNone))
  = inl (st, e) ->
  In (exn_cls e) connection_classes ->
  example_usage out w
  = (Return tt,
     (out
      ++ [Text "Testing connection...";
          Text "Error: Could not connect to Music Player at localhost:65432. Make sure the application is running.";
          advice])%list,
     with_connected false (__init__ "localhost" 65432 5),
     after_exchange w (request_payload "get_status" PyNone)).
Proof.
  intros Hout Hcls.
  unfold example_usage, io_try, example_body, get_status.
  rewrite io_bind_print, io_bind_send_command, Hout.
  unfold translated.
  apply isinstance_connection_classes in Hcls. rewrite Hcls.
  unfold io_bind, print. rewrite <- !app_assoc. reflexivity.
Qed.

Lemma example_usage_peer_unreachable_witness :
  @example_usage env_unreachable [] w0
  = (Return tt,
     ([]
      ++ [Text "Testing connection...";
          Text "Error: Could not connect to Music Player at localhost:65432. Make sure the application is running.";
          advice])%list,
     with_connected false (__init__ "localhost" 65432 5),
     @after_exchange env_unreachable w0
       (@request_payload env_unreachable "get_status" PyNone)).
Proof.
  apply (@example_usage_peer_unreachable env_unreachable [] w0 Connect
           (mk_exn ConnectionRefusedError "[Errno 111] Connection refused")
           eq_refl).
  cbn. tauto.
Defined.
